(** * A shallow embedding of osbs/build/build_requestv2.py

    The build request holds a template document (a JSON tree in the
    source) and mutates a fixed set of its fields while rendering.  The
    document is modelled as a record of exactly the fields the renderers
    touch; Python dicts are stdpp [gmap]s, lists are lists.  Python
    exceptions are the constructors of [py_error]; a method that may raise
    runs in the state-and-error monad [M] over the request object, which,
    like a Python object after an exception, keeps whatever was mutated
    before the raise.

    Collaborators that live outside build_requestv2.py (the user-parameter
    classes, osbs.utils, osbs.constants, yaml and the OpenShift API) are
    the fields of the record [externals]: every theorem below holds for
    every choice of them. *)

From Stdlib Require Import String Ascii ZArith List.
From stdpp Require Import base gmap strings list.
Import ListNotations.

Open Scope string_scope.

(* ------------------------------------------------------------------ *)
(** ** Python string helpers used by the module *)

Definition dash : ascii := "-"%char.

(** [name.endswith(suf)] *)
Definition ends_with (suf s : string) : bool :=
  (String.length suf <=? String.length s)%nat &&
  String.eqb (substring (String.length s - String.length suf)
                        (String.length suf) s) suf.

(** [name[:-n]] for [0 < n <= len(name)] *)
Definition drop_last (n : nat) (s : string) : string :=
  substring 0 (String.length s - n) s.

(** Split at the last ['-']: [(before, after)], or [None] when there is no
    ['-'] at all. *)
Fixpoint break_last_dash (s : string) : option (string * string) :=
  match s with
  | EmptyString => None
  | String c r =>
      match break_last_dash r with
      | Some (a, b) => Some (String c a, b)
      | None => if Ascii.eqb c dash then Some (EmptyString, r) else None
      end
  end.

(** [s.rsplit('-', 2)] *)
Definition rsplit_dash_2 (s : string) : list string :=
  match break_last_dash s with
  | None => [s]
  | Some (a, ts) =>
      match break_last_dash a with
      | None => [a; ts]
      | Some (p, salt) => [p; salt; ts]
      end
  end.

Fixpoint has_dash (s : string) : bool :=
  match s with
  | EmptyString => false
  | String c r => Ascii.eqb c dash || has_dash r
  end.

(** The number of ['-'] in a string (used to state when [rsplit_dash_2]
    yields three parts). *)
Fixpoint count_dash (s : string) : nat :=
  match s with
  | EmptyString => 0
  | String c r => ((if Ascii.eqb c dash then 1 else 0) + count_dash r)%nat
  end.

(** [os.path.join(a, b)] for two components (posixpath). *)
Definition os_path_join (a b : string) : string :=
  match b with
  | String "/" _ => b
  | _ =>
      if String.eqb a "" || ends_with "/" a then a +:+ b
      else a +:+ "/" +:+ b
  end.

(** [str(n)] for a Python int. *)
Fixpoint uint_to_string (u : Decimal.uint) : string :=
  match u with
  | Decimal.Nil => ""
  | Decimal.D0 u => String "0" (uint_to_string u)
  | Decimal.D1 u => String "1" (uint_to_string u)
  | Decimal.D2 u => String "2" (uint_to_string u)
  | Decimal.D3 u => String "3" (uint_to_string u)
  | Decimal.D4 u => String "4" (uint_to_string u)
  | Decimal.D5 u => String "5" (uint_to_string u)
  | Decimal.D6 u => String "6" (uint_to_string u)
  | Decimal.D7 u => String "7" (uint_to_string u)
  | Decimal.D8 u => String "8" (uint_to_string u)
  | Decimal.D9 u => String "9" (uint_to_string u)
  end.

Definition py_str_int (z : Z) : string :=
  match Z.to_int z with
  | Decimal.Pos u => uint_to_string u
  | Decimal.Neg u => "-" +:+ uint_to_string u
  end.


(* ------------------------------------------------------------------ *)
(** ** The template document *)

(** [imageChange.from] of a trigger: its [kind] ([None] when the key is
    absent) and its [name]. *)
Record image_from := mk_image_from {
  from_kind : option string;
  from_name : option string;
}.

(** An entry of [spec.triggers]: its [type] and its [imageChange]:
    [None] when the trigger has no [imageChange] key, [Some None] when
    [imageChange] has no [from] key, [Some (Some f)] otherwise. *)
Record trigger := mk_trigger {
  t_type : string;
  t_image_change : option (option image_from);
}.

(** An entry of [spec.strategy.customStrategy.env]: [{name, value}] or
    [{name, valueFrom: {configMapKeyRef: {name, key}}}]. *)
Inductive env_entry :=
| EnvValue (name value : string)
| EnvConfigMapKeyRef (name config_map key : string).

Definition env_name (e : env_entry) : string :=
  match e with EnvValue n _ | EnvConfigMapKeyRef n _ _ => n end.

(** An entry of [spec.strategy.customStrategy.secrets]. *)
Record secret_mount := mk_secret_mount {
  secret_source_name : string;
  mount_path : string;
}.

(** The fields of the Build/BuildConfig document the renderers read or
    write.  [None] is an absent key; a label value [None] is a JSON
    [null] that the template itself may carry.  [d_limits] is
    [spec.resources.limits]. *)
Record doc := mk_doc {
  d_name : option string;
  d_labels : option (gmap string (option string));
  d_output_name : option string;
  d_from_kind : option string;
  d_from_name : option string;
  d_env : list env_entry;
  d_secrets : option (list secret_mount);
  d_limits : option (gmap string string);
  d_node_selector : option (gmap string string);
  d_triggers : option (list trigger);
  d_deadline : option Z;
  d_git_uri : option string;
  d_git_ref : option string;
}.

(* ------------------------------------------------------------------ *)
(** ** Reactor configuration, user parameters, repo info *)

(** The reactor-config mapping, by the keys the module reads.  For the
    first four keys [None] is an absent key and [Some None] a key whose
    value is [null].  [rc_flatpak_base_image] is [flatpak.base_image]:
    [None] without a [flatpak] key, [Some None] when [base_image] is absent
    or [null].  [rc_other] holds the names of the keys the module does not
    read (they only matter for the mapping's truth value). *)
Record rc_data := mk_rc_data {
  rc_required_secrets : option (option (list string));
  rc_worker_token_secrets : option (option (list string));
  rc_source_registry : option (option string);
  rc_registries_organization : option (option string);
  rc_flatpak_base_image : option (option string);
  rc_other : list string;
}.

(** Python truth value of the mapping: non-empty. *)
Definition rc_truthy (d : rc_data) : bool :=
  bool_decide (is_Some (rc_required_secrets d)) ||
  bool_decide (is_Some (rc_worker_token_secrets d)) ||
  bool_decide (is_Some (rc_source_registry d)) ||
  bool_decide (is_Some (rc_registries_organization d)) ||
  bool_decide (is_Some (rc_flatpak_base_image d)) ||
  negb (bool_decide (rc_other d = [])).

Definition rc_empty : rc_data := mk_rc_data None None None None None [].

(** Truth value of an optional string parameter value. *)
Definition str_truthy (s : option string) : bool :=
  match s with Some (String _ _) => true | _ => false end.

(** The [.value]s of the user parameters (BuildUserParams). *)
Record user_params := mk_user_params {
  up_name : string;
  up_platform : option string;
  up_image_tag : string;
  up_build_imagestream : option string;
  up_build_image : option string;
  up_reactor_config_override : option rc_data;
  up_reactor_config_map : option string;
  up_build_type : option string;
  up_git_uri : option string;
  up_git_ref : option string;
  up_git_branch : option string;
  up_koji_task_id : option Z;
  up_trigger_imagestreamtag : option string;
  up_release : option string;
  up_flatpak : bool;
  up_worker_deadline : Z;
  up_orchestrator_deadline : Z;
}.

Definition override_truthy (up : user_params) : bool :=
  match up_reactor_config_override up with
  | Some d => rc_truthy d
  | None => false
  end.

(** What [repo_info] exposes: [configuration.is_autorebuild_enabled()],
    [configuration.autorebuild.get('add_timestamp_to_release', False)] and
    whether the Dockerfile sets a release label. *)
Record repo_info := mk_repo_info {
  ri_autorebuild_enabled : bool;
  ri_add_timestamp_to_release : bool;
  ri_has_release_label : bool;
}.

(** Python exceptions the module raises or lets through. *)
Inductive py_error :=
| OsbsValidationException (msg : string)
| OsbsException (msg : string)
| ValueError (msg : string)
| KeyError (key : string)
| RuntimeError (msg : string)
| TypeError (msg : string)
| IndexError (msg : string)
| CollaboratorError (msg : string).

Inductive result (A : Type) :=
| Ok (a : A)
| Err (e : py_error).
Arguments Ok {A} a.
Arguments Err {A} e.

(** [osbs_api.get_config_map(name).get_data_by_key('config.yaml')] *)
Record osbs_api := mk_osbs_api {
  get_config_map_data : string -> result rc_data;
}.

(** The BuildRequestV2 object. *)
Record builder := mk_builder {
  b_template : doc;
  b_scratch : bool;
  b_is_auto : bool;
  b_isolated : bool;
  b_osbs_api : option osbs_api;
  b_base_image : option string;
  b_platform_node_selector : gmap string string;
  b_scratch_build_node_selector : gmap string string;
  b_explicit_build_node_selector : gmap string string;
  b_auto_build_node_selector : gmap string string;
  b_isolated_build_node_selector : gmap string string;
  b_triggered_after_koji_task : option Z;
  b_skip_build : bool;
  b_repo_info : option repo_info;
  b_resource_limits : option (gmap string string);
  b_source_registry : option string;
  b_organization : option string;
  b_user_params : user_params;
}.

(** The keyword arguments of [set_params] the module reads itself; the
    others only reach [user_params.set_params] and are kept opaque in
    [kw_other].  [None] is an absent key. *)
Record kwargs := mk_kwargs {
  kw_scratch : option bool;
  kw_is_auto : option bool;
  kw_isolated : option bool;
  kw_osbs_api : option osbs_api;
  kw_skip_build : option bool;
  kw_triggered_after_koji_task : option Z;
  kw_base_image : option string;
  kw_platform_node_selector : option (gmap string string);
  kw_scratch_build_node_selector : option (gmap string string);
  kw_explicit_build_node_selector : option (gmap string string);
  kw_auto_build_node_selector : option (gmap string string);
  kw_isolated_build_node_selector : option (gmap string string);
  kw_other : list (string * string);
}.

(** Collaborators from other modules of the package, and the constants of
    osbs.constants the module uses. *)
Record externals := mk_externals {
  user_params_set_params : kwargs -> user_params -> result user_params;
  user_params_validate : user_params -> option py_error;
  user_params_to_json : user_params -> string;
  git_repo_humanish_part_from_uri : option string -> string;
  sanitize_strings_for_openshift : string -> string;
  yaml_safe_dump : rc_data -> string;
  ISOLATED_RELEASE_FORMAT_match : string -> bool;
  ISOLATED_RELEASE_FORMAT_pattern : string;
  SECRETS_PATH : string;
  BUILD_TYPE_WORKER : string;
  BUILD_TYPE_ORCHESTRATOR : string;
}.

(* ------------------------------------------------------------------ *)
(** ** Field updates *)

Section doc_updates.
Variable d : doc.
Definition doc_with_name v := mk_doc v (d_labels d) (d_output_name d) (d_from_kind d) (d_from_name d) (d_env d) (d_secrets d) (d_limits d) (d_node_selector d) (d_triggers d) (d_deadline d) (d_git_uri d) (d_git_ref d).
Definition doc_with_labels v := mk_doc (d_name d) v (d_output_name d) (d_from_kind d) (d_from_name d) (d_env d) (d_secrets d) (d_limits d) (d_node_selector d) (d_triggers d) (d_deadline d) (d_git_uri d) (d_git_ref d).
Definition doc_with_output_name v := mk_doc (d_name d) (d_labels d) v (d_from_kind d) (d_from_name d) (d_env d) (d_secrets d) (d_limits d) (d_node_selector d) (d_triggers d) (d_deadline d) (d_git_uri d) (d_git_ref d).
Definition doc_with_from_kind v := mk_doc (d_name d) (d_labels d) (d_output_name d) v (d_from_name d) (d_env d) (d_secrets d) (d_limits d) (d_node_selector d) (d_triggers d) (d_deadline d) (d_git_uri d) (d_git_ref d).
Definition doc_with_from_name v := mk_doc (d_name d) (d_labels d) (d_output_name d) (d_from_kind d) v (d_env d) (d_secrets d) (d_limits d) (d_node_selector d) (d_triggers d) (d_deadline d) (d_git_uri d) (d_git_ref d).
Definition doc_with_env v := mk_doc (d_name d) (d_labels d) (d_output_name d) (d_from_kind d) (d_from_name d) v (d_secrets d) (d_limits d) (d_node_selector d) (d_triggers d) (d_deadline d) (d_git_uri d) (d_git_ref d).
Definition doc_with_secrets v := mk_doc (d_name d) (d_labels d) (d_output_name d) (d_from_kind d) (d_from_name d) (d_env d) v (d_limits d) (d_node_selector d) (d_triggers d) (d_deadline d) (d_git_uri d) (d_git_ref d).
Definition doc_with_limits v := mk_doc (d_name d) (d_labels d) (d_output_name d) (d_from_kind d) (d_from_name d) (d_env d) (d_secrets d) v (d_node_selector d) (d_triggers d) (d_deadline d) (d_git_uri d) (d_git_ref d).
Definition doc_with_node_selector v := mk_doc (d_name d) (d_labels d) (d_output_name d) (d_from_kind d) (d_from_name d) (d_env d) (d_secrets d) (d_limits d) v (d_triggers d) (d_deadline d) (d_git_uri d) (d_git_ref d).
Definition doc_with_triggers v := mk_doc (d_name d) (d_labels d) (d_output_name d) (d_from_kind d) (d_from_name d) (d_env d) (d_secrets d) (d_limits d) (d_node_selector d) v (d_deadline d) (d_git_uri d) (d_git_ref d).
Definition doc_with_deadline v := mk_doc (d_name d) (d_labels d) (d_output_name d) (d_from_kind d) (d_from_name d) (d_env d) (d_secrets d) (d_limits d) (d_node_selector d) (d_triggers d) v (d_git_uri d) (d_git_ref d).
Definition doc_with_git_uri v := mk_doc (d_name d) (d_labels d) (d_output_name d) (d_from_kind d) (d_from_name d) (d_env d) (d_secrets d) (d_limits d) (d_node_selector d) (d_triggers d) (d_deadline d) v (d_git_ref d).
Definition doc_with_git_ref v := mk_doc (d_name d) (d_labels d) (d_output_name d) (d_from_kind d) (d_from_name d) (d_env d) (d_secrets d) (d_limits d) (d_node_selector d) (d_triggers d) (d_deadline d) (d_git_uri d) v.
End doc_updates.

Section builder_updates.
Variable b : builder.
Definition with_template v := mk_builder v (b_scratch b) (b_is_auto b) (b_isolated b) (b_osbs_api b) (b_base_image b) (b_platform_node_selector b) (b_scratch_build_node_selector b) (b_explicit_build_node_selector b) (b_auto_build_node_selector b) (b_isolated_build_node_selector b) (b_triggered_after_koji_task b) (b_skip_build b) (b_repo_info b) (b_resource_limits b) (b_source_registry b) (b_organization b) (b_user_params b).
Definition with_base_image v := mk_builder (b_template b) (b_scratch b) (b_is_auto b) (b_isolated b) (b_osbs_api b) v (b_platform_node_selector b) (b_scratch_build_node_selector b) (b_explicit_build_node_selector b) (b_auto_build_node_selector b) (b_isolated_build_node_selector b) (b_triggered_after_koji_task b) (b_skip_build b) (b_repo_info b) (b_resource_limits b) (b_source_registry b) (b_organization b) (b_user_params b).
Definition with_source_registry v := mk_builder (b_template b) (b_scratch b) (b_is_auto b) (b_isolated b) (b_osbs_api b) (b_base_image b) (b_platform_node_selector b) (b_scratch_build_node_selector b) (b_explicit_build_node_selector b) (b_auto_build_node_selector b) (b_isolated_build_node_selector b) (b_triggered_after_koji_task b) (b_skip_build b) (b_repo_info b) (b_resource_limits b) v (b_organization b) (b_user_params b).
Definition with_organization v := mk_builder (b_template b) (b_scratch b) (b_is_auto b) (b_isolated b) (b_osbs_api b) (b_base_image b) (b_platform_node_selector b) (b_scratch_build_node_selector b) (b_explicit_build_node_selector b) (b_auto_build_node_selector b) (b_isolated_build_node_selector b) (b_triggered_after_koji_task b) (b_skip_build b) (b_repo_info b) (b_resource_limits b) (b_source_registry b) v (b_user_params b).
(** [self.template['spec']['nodeSelector']] and the builder's selector it
    was taken from are one dict: [.update] changes both. *)
Definition with_scratch_selector v := mk_builder (b_template b) (b_scratch b) (b_is_auto b) (b_isolated b) (b_osbs_api b) (b_base_image b) (b_platform_node_selector b) v (b_explicit_build_node_selector b) (b_auto_build_node_selector b) (b_isolated_build_node_selector b) (b_triggered_after_koji_task b) (b_skip_build b) (b_repo_info b) (b_resource_limits b) (b_source_registry b) (b_organization b) (b_user_params b).
Definition with_explicit_selector v := mk_builder (b_template b) (b_scratch b) (b_is_auto b) (b_isolated b) (b_osbs_api b) (b_base_image b) (b_platform_node_selector b) (b_scratch_build_node_selector b) v (b_auto_build_node_selector b) (b_isolated_build_node_selector b) (b_triggered_after_koji_task b) (b_skip_build b) (b_repo_info b) (b_resource_limits b) (b_source_registry b) (b_organization b) (b_user_params b).
Definition with_auto_selector v := mk_builder (b_template b) (b_scratch b) (b_is_auto b) (b_isolated b) (b_osbs_api b) (b_base_image b) (b_platform_node_selector b) (b_scratch_build_node_selector b) (b_explicit_build_node_selector b) v (b_isolated_build_node_selector b) (b_triggered_after_koji_task b) (b_skip_build b) (b_repo_info b) (b_resource_limits b) (b_source_registry b) (b_organization b) (b_user_params b).
Definition with_isolated_selector v := mk_builder (b_template b) (b_scratch b) (b_is_auto b) (b_isolated b) (b_osbs_api b) (b_base_image b) (b_platform_node_selector b) (b_scratch_build_node_selector b) (b_explicit_build_node_selector b) (b_auto_build_node_selector b) v (b_triggered_after_koji_task b) (b_skip_build b) (b_repo_info b) (b_resource_limits b) (b_source_registry b) (b_organization b) (b_user_params b).
Definition with_resource_limits v := mk_builder (b_template b) (b_scratch b) (b_is_auto b) (b_isolated b) (b_osbs_api b) (b_base_image b) (b_platform_node_selector b) (b_scratch_build_node_selector b) (b_explicit_build_node_selector b) (b_auto_build_node_selector b) (b_isolated_build_node_selector b) (b_triggered_after_koji_task b) (b_skip_build b) (b_repo_info b) v (b_source_registry b) (b_organization b) (b_user_params b).
End builder_updates.

(* ------------------------------------------------------------------ *)
(** ** The request object's state-and-error monad *)

(** A method call: the result (a return value or a raised exception) and
    the object's state afterwards, kept on both paths. *)
Definition M (A : Type) : Type := builder -> result A * builder.

Global Instance M_ret : MRet M := fun A a b => (Ok a, b).
Global Instance M_bind : MBind M := fun A B f m b =>
  match m b with
  | (Ok a, b') => f a b'
  | (Err e, b') => (Err e, b')
  end.

Definition get_self : M builder := fun b => (Ok b, b).
Definition modify_self (f : builder -> builder) : M unit := fun b => (Ok tt, f b).
Definition raise {A} (e : py_error) : M A := fun b => (Err e, b).
Definition template : M doc := fun b => (Ok (b_template b), b).
Definition modify_template (f : doc -> doc) : M unit :=
  modify_self (fun b => with_template b (f (b_template b))).

(* ------------------------------------------------------------------ *)
(** ** BaseBuildRequest / BuildRequestV2 methods

    [template] reads the already loaded template document; loading and
    its cache are modelled on their own in module [TemplateStore]. *)

Section methods.
Variable X : externals.

(** BaseBuildRequest.set_label *)
Definition set_label (name : string) (value : option string) : M unit :=
  let value := if str_truthy value then default "" value else "" in
  modify_template (fun d =>
    let labels := default ∅ (d_labels d) in
    doc_with_labels d
      (Some (<[name := Some (sanitize_strings_for_openshift X value)]> labels))).

(** The first lines of render_name's variation branch: drop a trailing
    ['-<platform>'] from the image tag when a platform is set. *)
Definition strip_platform_suffix (platform : option string) (name : string) : string :=
  if str_truthy platform then
    let platform_suffix := "-" +:+ default "" platform in
    if ends_with platform_suffix name
    then drop_last (String.length platform_suffix) name
    else name
  else name.

(** BaseBuildRequest.render_name *)
Definition render_name : M unit :=
  b ← get_self;
  let up := b_user_params b in
  let name := up_name up in
  let platform := up_platform up in
  name ←
    (if b_scratch b || b_isolated b then
       let name := strip_platform_suffix platform (up_image_tag up) in
       match rsplit_dash_2 name with
       | [_; salt; timestamp] =>
           mret (if b_scratch b then "scratch-" +:+ salt +:+ "-" +:+ timestamp
                 else if b_isolated b then "isolated-" +:+ salt +:+ "-" +:+ timestamp
                 else name)
       | _ => raise (ValueError "not enough values to unpack (expected 3)")
       end
     else mret name);
  modify_template (fun d => doc_with_name d (Some name)).

(** BaseBuildRequest.render_output_name *)
Definition render_output_name : M unit :=
  b ← get_self;
  modify_template (fun d =>
    doc_with_output_name d (Some (up_image_tag (b_user_params b)))).

(** BaseBuildRequest.render_custom_strategy *)
Definition render_custom_strategy : M unit :=
  b ← get_self;
  let up := b_user_params b in
  if str_truthy (up_build_imagestream up) then
    modify_template (fun d =>
      doc_with_from_name (doc_with_from_kind d (Some "ImageStreamTag"))
        (up_build_imagestream up))
  else
    modify_template (fun d => doc_with_from_name d (up_build_image up)).

(** BaseBuildRequest.render_resource_limits: [limits.update(...)], the
    new keys win. *)
Definition render_resource_limits : M unit :=
  b ← get_self;
  match b_resource_limits b with
  | Some rl =>
      modify_template (fun d =>
        doc_with_limits d (Some (rl ∪ default ∅ (d_limits d))))
  | None => mret tt
  end.

(** BaseBuildRequest.render_user_params *)
Definition render_user_params : M unit :=
  b ← get_self;
  modify_template (fun d =>
    doc_with_env d (app (d_env d)
      [EnvValue "USER_PARAMS" (user_params_to_json X (b_user_params b))])).

(** BaseBuildRequest.adjust_for_scratch *)
Definition adjust_for_scratch : M unit :=
  b ← get_self;
  if b_scratch b then
    modify_template (fun d => doc_with_triggers d None);;
    set_label "scratch" (Some "true")
  else mret tt.

(** The reactor-config environment entry, if any. *)
Definition reactor_config_entry (up : user_params) : option env_entry :=
  let reactor_config_override := up_reactor_config_override up in
  let reactor_config_map := up_reactor_config_map up in
  if negb (str_truthy reactor_config_map) && negb (override_truthy up) then None
  else
    match reactor_config_override with
    | Some o =>
        if rc_truthy o then Some (EnvValue "REACTOR_CONFIG" (yaml_safe_dump X o))
        else match reactor_config_map with
             | Some m => Some (EnvConfigMapKeyRef "REACTOR_CONFIG" m "config.yaml")
             | None => None
             end
    | None =>
        match reactor_config_map with
        | Some m => Some (EnvConfigMapKeyRef "REACTOR_CONFIG" m "config.yaml")
        | None => None
        end
    end.

(** BaseBuildRequest.set_reactor_config *)
Definition set_reactor_config : M unit :=
  b ← get_self;
  match reactor_config_entry (b_user_params b) with
  | Some e => modify_template (fun d => doc_with_env d ((d_env d ++ [e])%list))
  | None => mret tt
  end.

(** Remove the first entry of [env] named [n]. *)
Fixpoint delete_first_named (n : string) (l : list env_entry) : list env_entry :=
  match l with
  | [] => []
  | e :: r => if String.eqb (env_name e) n then r else e :: delete_first_named n r
  end.

(** BaseBuildRequest.delete_atomic_reactor_placeholder *)
Definition delete_atomic_reactor_placeholder : M unit :=
  modify_template (fun d =>
    doc_with_env d (delete_first_named "ATOMIC_REACTOR_PLUGINS" (d_env d))).

(** BaseBuildRequest.get_reactor_config_data *)
Definition get_reactor_config_data : M rc_data :=
  b ← get_self;
  let up := b_user_params b in
  match up_reactor_config_override up with
  | Some o => if rc_truthy o then mret o else
      if str_truthy (up_reactor_config_map up) then
        match b_osbs_api b with
        | Some api =>
            match get_config_map_data api (default "" (up_reactor_config_map up)) with
            | Ok data => mret data
            | Err e => raise e
            end
        | None => raise (CollaboratorError "'NoneType' object has no attribute 'get_config_map'")
        end
      else mret rc_empty
  | None =>
      if str_truthy (up_reactor_config_map up) then
        match b_osbs_api b with
        | Some api =>
            match get_config_map_data api (default "" (up_reactor_config_map up)) with
            | Ok data => mret data
            | Err e => raise e
            end
        | None => raise (CollaboratorError "'NoneType' object has no attribute 'get_config_map'")
        end
      else mret rc_empty
  end.

(** The mount entries [_set_required_secrets] appends: one per required
    name not already mounted.  Python iterates the set
    [required_secrets - existing] in hash order; here the names come in
    their first-occurrence order (nothing below depends on the order). *)
Definition new_secret_mounts (existing : list secret_mount) (required : list string)
  : list secret_mount :=
  let names := map secret_source_name existing in
  map (fun s => mk_secret_mount s (os_path_join (SECRETS_PATH X) s))
      (filter (fun s => s ∉ names) (remove_dups required)).

(** BaseBuildRequest._set_required_secrets, on the document *)
Definition set_required_secrets_doc (required_secrets : list string) (d : doc) : doc :=
  match required_secrets with
  | [] => d
  | _ =>
      let secrets := default [] (d_secrets d) in
      doc_with_secrets d (Some ((secrets ++ new_secret_mounts secrets required_secrets)%list))
  end.

Definition _set_required_secrets (required_secrets : list string) : M unit :=
  modify_template (set_required_secrets_doc required_secrets).

(** BuildRequestV2.set_required_secrets: [.get(key, [])] is [[]] for an
    absent key and [None] for a [null] one; [required_secrets +=
    token_secrets] raises TypeError when either is [None], and
    [_set_required_secrets(None)] returns at [if not required_secrets]. *)
Definition set_required_secrets (reactor_config_data : rc_data) : M unit :=
  b ← get_self;
  let required_secrets := default (Some []) (rc_required_secrets reactor_config_data) in
  let token_secrets := default (Some []) (rc_worker_token_secrets reactor_config_data) in
  if bool_decide (up_build_type (b_user_params b) = Some (BUILD_TYPE_ORCHESTRATOR X)) then
    match required_secrets, token_secrets with
    | Some r, Some t => _set_required_secrets (r ++ t)%list
    | Some _, None => raise (TypeError "'NoneType' object is not iterable")
    | None, Some _ =>
        raise (TypeError "unsupported operand type(s) for +=: 'NoneType' and 'list'")
    | None, None =>
        raise (TypeError "unsupported operand type(s) for +=: 'NoneType' and 'NoneType'")
    end
  else
    match required_secrets with
    | Some r => _set_required_secrets r
    | None => mret tt
    end.

(** BaseBuildRequest.set_source_registry *)
Definition set_source_registry (reactor_config_data : rc_data) : M unit :=
  match rc_source_registry reactor_config_data with
  | Some r => modify_self (fun b => with_source_registry b r)
  | None => mret tt
  end.

(** BaseBuildRequest.set_registry_organization *)
Definition set_registry_organization (reactor_config_data : rc_data) : M unit :=
  match rc_registries_organization reactor_config_data with
  | Some o => modify_self (fun b => with_organization b o)
  | None => mret tt
  end.

(** BuildRequestV2._set_flatpak ([user_params.base_image.value] is also
    overwritten in the source; nothing read later depends on it). *)
Definition _set_flatpak (reactor_config_data : rc_data) : M unit :=
  b ← get_self;
  if up_flatpak (b_user_params b) then
    let flatpack_base_image :=
      match rc_flatpak_base_image reactor_config_data with
      | Some fb => fb
      | None => None
      end in
    if str_truthy flatpack_base_image then
      modify_self (fun b => with_base_image b flatpack_base_image)
    else raise (OsbsValidationException "flatpak_base_image must be provided")
  else mret tt.

(** BuildRequestV2.set_data_from_reactor_config *)
Definition set_data_from_reactor_config (reactor_config_data : rc_data) : M unit :=
  set_source_registry reactor_config_data;;
  set_registry_organization reactor_config_data;;
  set_required_secrets reactor_config_data;;
  b ← get_self;
  if negb (rc_truthy reactor_config_data) then
    if up_flatpak (b_user_params b)
    then raise (OsbsValidationException "flatpak_base_image must be provided")
    else mret tt
  else _set_flatpak reactor_config_data.

(** BaseBuildRequest.render *)
Definition base_render (validate : bool) : M unit :=
  b ← get_self;
  match b_osbs_api b with
  | None => raise (OsbsValidationException "OSBS API is not specified")
  | Some _ =>
      (if validate then
         match user_params_validate X (b_user_params b) with
         | Some e => raise e
         | None => mret tt
         end
       else mret tt);;
      render_name;;
      render_output_name;;
      render_custom_strategy;;
      render_resource_limits;;
      adjust_for_scratch;;
      set_reactor_config;;
      render_user_params;;
      delete_atomic_reactor_placeholder;;
      data ← get_reactor_config_data;
      set_data_from_reactor_config data
  end.

(** BuildRequestV2.has_ist_trigger *)
Fixpoint has_ist_trigger_in (triggers : list trigger) : result bool :=
  match triggers with
  | [] => Ok false
  | t :: r =>
      if String.eqb (t_type t) "ImageChange" then
        match t_image_change t with
        | None => Err (KeyError "imageChange")
        | Some None => Err (KeyError "from")
        | Some (Some f) =>
            match from_kind f with
            | None => Err (KeyError "kind")
            | Some kind =>
                if String.eqb kind "ImageStreamTag" then Ok true else has_ist_trigger_in r
            end
        end
      else has_ist_trigger_in r
  end.

Definition has_ist_trigger : M bool :=
  d ← template;
  match has_ist_trigger_in (default [] (d_triggers d)) with
  | Ok v => mret v
  | Err e => raise e
  end.

(** [self.template['spec']['triggers'][0]['imageChange']['from']['name'] = v] *)
Definition set_first_trigger_from_name (v : option string) : M unit :=
  d ← template;
  match d_triggers d with
  | Some (t :: r) =>
      match t_image_change t with
      | Some (Some f) =>
          modify_template (fun d =>
            doc_with_triggers d
              (Some (mk_trigger (t_type t) (Some (Some (mk_image_from (from_kind f) v))) :: r)))
      | Some None => raise (KeyError "from")
      | None => raise (KeyError "imageChange")
      end
  | Some [] => raise (IndexError "list index out of range")
  | None => raise (KeyError "triggers")
  end.

(** The match of the regular expression of is_custom_base_image,
    [^koji/image-build], then optionally [:] and any characters, then [$]:
    [.] stops at a newline and [$] also matches just before a final
    newline. *)
Fixpoint has_newline (s : string) : bool :=
  match s with
  | EmptyString => false
  | String c r => Ascii.eqb c "010"%char || has_newline r
  end.

Definition custom_base_image_body (s : string) : bool :=
  String.eqb s "koji/image-build" ||
  (String.prefix "koji/image-build:" s &&
   negb (has_newline (substring 17 (String.length s - 17) s))).

Definition custom_base_image_re (s : string) : bool :=
  custom_base_image_body s ||
  (ends_with (String "010"%char EmptyString) s && custom_base_image_body (drop_last 1 s)).

(** BuildRequestV2.is_custom_base_image *)
Definition is_custom_base_image (b : builder) : bool :=
  custom_base_image_re (default "" (b_base_image b)).

(** BuildRequestV2.is_from_scratch_image *)
Definition is_from_scratch_image (b : builder) : bool :=
  bool_decide (b_base_image b = Some "scratch").

(** BuildRequestV2.adjust_for_repo_info *)
Definition adjust_for_repo_info : M unit :=
  b ← get_self;
  match b_repo_info b with
  | None => mret tt
  | Some ri =>
      if negb (ri_autorebuild_enabled ri) then
        modify_template (fun d => doc_with_triggers d None)
      else if ri_add_timestamp_to_release ri then mret tt
      else if ri_has_release_label ri then
        let q := String "034"%char EmptyString in
        raise (RuntimeError ("when autorebuild is enabled in repo configuration, " +:+ q +:+
                             "release" +:+ q +:+ " label must not be set in Dockerfile"))
      else mret tt
  end.

(** BuildRequestV2.adjust_for_isolated *)
Definition adjust_for_isolated (release : option string) : M unit :=
  b ← get_self;
  if negb (b_isolated b) then mret tt else
  modify_template (fun d => doc_with_triggers d None);;
  if negb (str_truthy release) then
    raise (OsbsValidationException "The release parameter is required for isolated builds.")
  else if negb (ISOLATED_RELEASE_FORMAT_match X (default "" release)) then
    raise (OsbsValidationException
             ("For isolated builds, the release value must be in the format: "
              +:+ ISOLATED_RELEASE_FORMAT_pattern X))
  else
    set_label "isolated" (Some "true");;
    set_label "isolated-release" release.

(** The selector [render_node_selectors] starts from. *)
Definition base_node_selector (b : builder) : gmap string string :=
  if b_is_auto b then b_auto_build_node_selector b
  else if b_scratch b then b_scratch_build_node_selector b
  else if b_isolated b then b_isolated_build_node_selector b
  else b_explicit_build_node_selector b.

(** The builder's own selector object, which [.update] also changes. *)
Definition update_base_node_selector (b : builder) (v : gmap string string) : builder :=
  if b_is_auto b then with_auto_selector b v
  else if b_scratch b then with_scratch_selector b v
  else if b_isolated b then with_isolated_selector b v
  else with_explicit_selector b v.

(** BuildRequestV2.render_node_selectors *)
Definition render_node_selectors (build_type : option string) : M unit :=
  b ← get_self;
  if bool_decide (build_type = Some (BUILD_TYPE_WORKER X)) then
    let sel := base_node_selector b in
    modify_template (fun d => doc_with_node_selector d (Some sel));;
    if bool_decide (b_platform_node_selector b = ∅) then mret tt
    else
      let merged := b_platform_node_selector b ∪ sel in
      modify_template (fun d => doc_with_node_selector d (Some merged));;
      modify_self (fun b => update_base_node_selector b merged)
  else mret tt.

(** BaseBuildRequest.set_deadline *)
Definition set_deadline (deadline_hours : Z) : M unit :=
  if (0 <? deadline_hours)%Z then
    modify_template (fun d => doc_with_deadline d (Some (deadline_hours * 3600)%Z))
  else mret tt.

(** BuildRequestV2._set_deadline *)
Definition _set_deadline : M unit :=
  b ← get_self;
  let up := b_user_params b in
  if bool_decide (up_build_type up = Some (BUILD_TYPE_WORKER X))
  then set_deadline (up_worker_deadline up)
  else set_deadline (up_orchestrator_deadline up).

Definition triggers_truthy (d : doc) : bool :=
  match d_triggers d with Some (_ :: _) => true | _ => false end.

(** BuildRequestV2.render, after the base pipeline, is written below in
    three consecutive parts: the git source and the labels; the removal of
    triggers for a custom or scratch base image; and the adjustments from
    [adjust_for_repo_info] on.  Each part reads [self.user_params] afresh,
    as the source does (render does not change it). *)
Definition render_v2_labels : M unit :=
  b ← get_self;
  let up := b_user_params b in
  modify_template (fun d => doc_with_git_ref (doc_with_git_uri d (up_git_uri up)) (up_git_ref up));;
  ist ← has_ist_trigger;
  (if (ist : bool) then set_first_trigger_from_name (up_trigger_imagestreamtag up) else mret tt);;
  let repo_name := git_repo_humanish_part_from_uri X (up_git_uri up) in
  set_label "git-repo-name" (Some repo_name);;
  set_label "git-branch" (up_git_branch up);;
  set_label "git-full-repo" (up_git_uri up);;
  match up_koji_task_id up with
  | Some koji_task_id =>
      set_label "koji-task-id" (Some (py_str_int koji_task_id));;
      (if bool_decide (b_triggered_after_koji_task b = None)
       then set_label "original-koji-task-id" (Some (py_str_int koji_task_id))
       else mret tt)
  | None => mret tt
  end.

(** [if template['spec'].get('triggers', []) and (custom or scratch):
    del template['spec']['triggers']] *)
Definition remove_triggers_for_base_image : M unit :=
  d ← template;
  b ← get_self;
  if triggers_truthy d && (is_custom_base_image b || is_from_scratch_image b)
  then modify_template (fun d => doc_with_triggers d None)
  else mret tt.

Definition render_v2_until_isolated : M unit :=
  render_v2_labels;;
  remove_triggers_for_base_image;;
  adjust_for_repo_info.

Definition render_from_isolated : M doc :=
  b ← get_self;
  let up := b_user_params b in
  adjust_for_isolated (up_release up);;
  render_node_selectors (up_build_type up);;
  _set_deadline;;
  template.

Definition render_v2_tail : M doc :=
  render_v2_until_isolated;;
  render_from_isolated.

(** BuildRequestV2.render *)
Definition render (validate : bool) : M doc :=
  base_render validate;;
  render_v2_tail.

(** The part of [render] that runs before [adjust_for_isolated]. *)
Definition render_until_isolated (validate : bool) : M unit :=
  base_render validate;;
  render_v2_until_isolated.

(** BuildRequestV2.validate_build_variation: [variations.count(True) > 1] *)
Definition variation_count (scratch is_auto isolated : bool) : nat :=
  length (filter (fun v : bool => v) [scratch; is_auto; isolated]).

Definition validate_build_variation : M unit :=
  b ← get_self;
  if (1 <? variation_count (b_scratch b) (b_is_auto b) (b_isolated b))%nat then
    raise (OsbsValidationException
             "Build variations are mutually exclusive. Must set either scratch, is_auto, isolated, or none. ")
  else mret tt.

(** [kwargs.get(k)] of a flag: [None] and [False] behave alike in every
    use the module makes of them (truth value and [count(True)]). *)
Definition flag (v : option bool) : bool := default false v.

(** The keyword arguments left after [osbs_api], [is_auto] and
    [skip_build] have been popped. *)
Definition kwargs_for_user_params (kw : kwargs) : kwargs :=
  mk_kwargs (kw_scratch kw) None (kw_isolated kw) None None
    (kw_triggered_after_koji_task kw) (kw_base_image kw)
    (kw_platform_node_selector kw) (kw_scratch_build_node_selector kw)
    (kw_explicit_build_node_selector kw) (kw_auto_build_node_selector kw)
    (kw_isolated_build_node_selector kw) (kw_other kw).

(** BuildRequestV2.set_params (with BaseBuildRequest.set_params inlined):
    the attributes set before [validate_build_variation], the check, the
    attributes set after it, then [user_params.set_params] with the
    remaining keyword arguments ([osbs_api], [is_auto] and [skip_build]
    are popped). *)
Definition set_params (kw : kwargs) : M unit :=
  modify_self (fun b =>
    mk_builder (b_template b) (flag (kw_scratch kw)) (flag (kw_is_auto kw))
      (flag (kw_isolated kw)) (kw_osbs_api kw) (b_base_image b)
      (b_platform_node_selector b) (b_scratch_build_node_selector b)
      (b_explicit_build_node_selector b) (b_auto_build_node_selector b)
      (b_isolated_build_node_selector b) (kw_triggered_after_koji_task kw)
      (flag (kw_skip_build kw)) (b_repo_info b) (b_resource_limits b)
      (b_source_registry b) (b_organization b) (b_user_params b));;
  validate_build_variation;;
  b ← get_self;
  let kw_rest := kwargs_for_user_params kw in
  modify_self (fun b =>
    mk_builder (b_template b) (b_scratch b) (b_is_auto b) (b_isolated b)
      (b_osbs_api b) (kw_base_image kw)
      (default ∅ (kw_platform_node_selector kw))
      (default ∅ (kw_scratch_build_node_selector kw))
      (default ∅ (kw_explicit_build_node_selector kw))
      (default ∅ (kw_auto_build_node_selector kw))
      (default ∅ (kw_isolated_build_node_selector kw))
      (b_triggered_after_koji_task b) (b_skip_build b) (b_repo_info b)
      (b_resource_limits b) (b_source_registry b) (b_organization b)
      (b_user_params b));;
  match user_params_set_params X kw_rest (b_user_params b) with
  | Ok up =>
      modify_self (fun b =>
        mk_builder (b_template b) (b_scratch b) (b_is_auto b) (b_isolated b)
          (b_osbs_api b) (b_base_image b) (b_platform_node_selector b)
          (b_scratch_build_node_selector b) (b_explicit_build_node_selector b)
          (b_auto_build_node_selector b) (b_isolated_build_node_selector b)
          (b_triggered_after_koji_task b) (b_skip_build b) (b_repo_info b)
          (b_resource_limits b) (b_source_registry b) (b_organization b) up)
  | Err e => raise e
  end.

End methods.

(* ------------------------------------------------------------------ *)
(** ** The loading of the template (BaseBuildRequest.template) *)

Module TemplateStore.

(** What [json.load] makes of the file: a JSON [null] (Python [None]), a
    template document, or some other JSON value. *)
Inductive loaded :=
| JNull
| JDoc (d : doc)
| JOther.

(** A file under the build-json directory: [open] fails, or it opens and
    its content parses to a value, or it is not valid JSON. *)
Inductive file :=
| CannotOpen
| Parses (v : loaded)
| NotJson.

(** [self._template], [None] until loaded, and the number of [open]
    calls made so far. *)
Record store := mk_store {
  cached : loaded;
  opens : nat;
}.

Definition initial : store := mk_store JNull 0.

(** The [template] property: [fs] maps a path to its file. *)
Definition template (fs : string -> file) (build_json_store outer_template_path : string)
  (st : store) : result loaded * store :=
  match cached st with
  | JNull =>
      let path := os_path_join build_json_store outer_template_path in
      let st := mk_store (cached st) (S (opens st)) in
      match fs path with
      | CannotOpen => (Err (OsbsException ("Can't open template '" +:+ path +:+ "'")), st)
      | NotJson => (Err (ValueError "Expecting value"), st)
      | Parses v => (Ok v, mk_store v (opens st))
      end
  | v => (Ok v, st)
  end.

(** [n] accesses of the property, one after the other. *)
Fixpoint accesses (fs : string -> file) (build_json_store outer_template_path : string)
  (n : nat) (st : store) : store :=
  match n with
  | O => st
  | S n => accesses fs build_json_store outer_template_path n
             (snd (template fs build_json_store outer_template_path st))
  end.

End TemplateStore.

(* ------------------------------------------------------------------ *)
(** ** Other methods of the request classes *)

(** BaseBuildRequest.set_resource_limits *)
Definition set_resource_limits (cpu memory storage : option string) : M unit :=
  modify_self (fun b =>
    let rl := default ∅ (b_resource_limits b) in
    let rl := match cpu with Some c => <["cpu" := c]> rl | None => rl end in
    let rl := match memory with Some m => <["memory" := m]> rl | None => rl end in
    let rl := match storage with Some s => <["storage" := s]> rl | None => rl end in
    with_resource_limits b (Some rl)).

(** SourceBuildRequest.render_name *)
Definition source_render_name : M unit :=
  b ← get_self;
  let name := up_image_tag (b_user_params b) in
  match rsplit_dash_2 name with
  | [_; salt; timestamp] =>
      let name := "sources-" +:+ salt +:+ "-" +:+ timestamp in
      let name := if b_scratch b then "scratch-" +:+ name else name in
      modify_template (fun d => doc_with_name d (Some name))
  | _ => raise (ValueError "not enough values to unpack (expected 3)")
  end.

(* ------------------------------------------------------------------ *)
(** ** A concrete request used by the examples and witnesses *)

Definition X0 : externals := {|
  user_params_set_params := fun _ up => Ok up;
  user_params_validate := fun _ => None;
  user_params_to_json := fun _ => "{}";
  git_repo_humanish_part_from_uri := fun _ => "reponame";
  sanitize_strings_for_openshift := fun s => s;
  yaml_safe_dump := fun _ => "required_secrets: [kojisecret]";
  ISOLATED_RELEASE_FORMAT_match := fun s => String.prefix "1." s;
  ISOLATED_RELEASE_FORMAT_pattern := "^1\.";
  SECRETS_PATH := "/var/run/secrets/atomic-reactor/";
  BUILD_TYPE_WORKER := "worker";
  BUILD_TYPE_ORCHESTRATOR := "orchestrator";
|}.

Definition ist_trigger : trigger :=
  mk_trigger "ImageChange" (Some (Some (mk_image_from (Some "ImageStreamTag") (Some "base:latest")))).

Definition template0 : doc :=
  mk_doc None None None None None
    [EnvValue "ATOMIC_REACTOR_PLUGINS" "{}"] None None None
    (Some [ist_trigger]) None None None.

Definition up0 : user_params :=
  mk_user_params "reponame-master" None "myimage-abc123-20200101000000"
    None (Some "buildroot:latest") None (Some "reactor-config-map")
    (Some "worker") (Some "https://github.com/user/reponame.git")
    (Some "abcdef") (Some "master") (Some 12345%Z) (Some "base:latest")
    (Some "1.0") false 3 4.

Definition api0 : osbs_api := mk_osbs_api (fun _ => Ok rc_empty).

Definition b0 : builder :=
  mk_builder template0 false false false (Some api0) (Some "fedora:30")
    ∅ ∅ ∅ ∅ ∅ None false None None None None up0.

(** [b0] as a scratch build, and as an isolated one. *)
Definition b_scratch0 : builder :=
  mk_builder template0 true false false (Some api0) (Some "fedora:30")
    ∅ ∅ ∅ ∅ ∅ None false None None None None up0.

Definition b_isolated0 : builder :=
  mk_builder template0 false false true (Some api0) (Some "fedora:30")
    ∅ ∅ ∅ ∅ ∅ None false None None None None up0.

(** [b0] as an auto build with an auto selector {pool: auto} and a platform selector {zone: a}. *)
Definition b_auto0 : builder :=
  mk_builder template0 false true false (Some api0) (Some "fedora:30")
    (<["zone" := "a"]> ∅) ∅ ∅ (<["pool" := "auto"]> ∅) ∅ None false None None None None up0.

(** [b0] whose template carries a label with a JSON [null] value. *)
Definition b_null_label0 : builder :=
  with_template b0 (doc_with_labels template0 (Some (<["x" := None]> ∅))).

(** [b0] built from a custom base image, and with [FROM scratch]. *)
Definition b_custom0 : builder :=
  with_base_image b0 (Some "koji/image-build:v1").

Definition b_from_scratch0 : builder :=
  with_base_image b0 (Some "scratch").

(** [b_isolated0] without a release, and with the release ["2.0"]. *)
Definition b_isolated_norelease0 : builder :=
  mk_builder template0 false false true (Some api0) (Some "fedora:30")
    ∅ ∅ ∅ ∅ ∅ None false None None None None
    (mk_user_params "reponame-master" None "myimage-abc123-20200101000000"
       None (Some "buildroot:latest") None (Some "reactor-config-map")
       (Some "worker") (Some "https://github.com/user/reponame.git")
       (Some "abcdef") (Some "master") (Some 12345%Z) (Some "base:latest")
       None false 3 4).

Definition b_isolated_badrelease0 : builder :=
  mk_builder template0 false false true (Some api0) (Some "fedora:30")
    ∅ ∅ ∅ ∅ ∅ None false None None None None
    (mk_user_params "reponame-master" None "myimage-abc123-20200101000000"
       None (Some "buildroot:latest") None (Some "reactor-config-map")
       (Some "worker") (Some "https://github.com/user/reponame.git")
       (Some "abcdef") (Some "master") (Some 12345%Z) (Some "base:latest")
       (Some "2.0") false 3 4).

(** [b_scratch0] whose image tag has a single ['-']. *)
Definition b_short_tag0 : builder :=
  mk_builder template0 true false false (Some api0) (Some "fedora:30")
    ∅ ∅ ∅ ∅ ∅ None false None None None None
    (mk_user_params "reponame-master" None "myimage-abc123"
       None (Some "buildroot:latest") None (Some "reactor-config-map")
       (Some "worker") (Some "https://github.com/user/reponame.git")
       (Some "abcdef") (Some "master") (Some 12345%Z) (Some "base:latest")
       (Some "1.0") false 3 4).

(** [b0] with repo info: autorebuild disabled; and autorebuild enabled,
    without [add_timestamp_to_release], with a release label in the
    Dockerfile. *)
Definition b_norebuild0 : builder :=
  mk_builder template0 false false false (Some api0) (Some "fedora:30")
    ∅ ∅ ∅ ∅ ∅ None false (Some (mk_repo_info false false false)) None None None up0.

Definition b_release_label0 : builder :=
  mk_builder template0 false false false (Some api0) (Some "fedora:30")
    ∅ ∅ ∅ ∅ ∅ None false (Some (mk_repo_info true false true)) None None None up0.

(* ------------------------------------------------------------------ *)
(** ** What a step keeps of the request builder

    [preserves R m]: whatever [m] returns, normally or by raising, the
    state before and the state after are related by [R]. *)

Definition preserves (R : builder -> builder -> Prop) {A} (m : M A) : Prop :=
  forall b r b', m b = (r, b') -> R b b'.

Definition trig (b : builder) : option (list trigger) := d_triggers (b_template b).

(** [metadata.labels[k]], [None] when the labels or the key are absent. *)
Definition label_of (d : doc) (k : string) : option (option string) :=
  match d_labels d with
  | Some l => l !! k
  | None => None
  end.

(** The build variation, the user parameters and the other attributes that
    [render] only reads. *)
Definition same_flags (b b' : builder) : Prop :=
  b_scratch b' = b_scratch b /\ b_is_auto b' = b_is_auto b /\
  b_isolated b' = b_isolated b /\ b_user_params b' = b_user_params b /\
  b_repo_info b' = b_repo_info b /\
  b_triggered_after_koji_task b' = b_triggered_after_koji_task b /\
  b_osbs_api b' = b_osbs_api b.

(** Every label of the later document was already there with the same
    value, or holds a sanitized string. *)
Definition labels_from (X : externals) (b b' : builder) : Prop :=
  forall k v, label_of (b_template b') k = Some v ->
    label_of (b_template b) k = Some v \/
    exists s, v = Some (sanitize_strings_for_openshift X s).

(** [spec.triggers] is absent or a non-empty list. *)
Definition triggers_shaped (t : option (list trigger)) : Prop :=
  t = None \/ exists x xs, t = Some (x :: xs).

(** Absent triggers stay absent, and triggers never become an empty list. *)
Definition trig_rel (b b' : builder) : Prop :=
  (trig b = None -> trig b' = None) /\
  (triggers_shaped (trig b) -> triggers_shaped (trig b')).

(** The keys under which render sets a label: [adjust_for_scratch],
    [render] itself and [adjust_for_isolated]. *)
Definition render_label_keys : list string :=
  ["scratch"; "git-repo-name"; "git-branch"; "git-full-repo"; "koji-task-id";
   "original-koji-task-id"; "isolated"; "isolated-release"].

(** Triggers that are a non-empty list stay a non-empty list. *)
Definition trig_truthy_rel (b b' : builder) : Prop :=
  triggers_truthy (b_template b) = true -> triggers_truthy (b_template b') = true.

Definition same_base_image (b b' : builder) : Prop :=
  b_base_image b' = b_base_image b.

(** One part of the document is the same before and after. *)
Definition same_field {A} (f : doc -> A) (b b' : builder) : Prop :=
  f (b_template b') = f (b_template b).

(** One attribute of the request object is the same before and after. *)
Definition same_attr {A} (f : builder -> A) (b b' : builder) : Prop :=
  f b' = f b.

Definition same_labels (b b' : builder) : Prop :=
  d_labels (b_template b') = d_labels (b_template b).

(* ================================================================== *)
(** * Properties *)

(** ** Strings *)

Lemma string_app_cons (c : ascii) (s t : string) : String c s +:+ t = String c (s +:+ t).
Proof. reflexivity. Qed.

Lemma string_app_assoc (r s t : string) : (r +:+ s) +:+ t = r +:+ (s +:+ t).
Proof.
  induction r as [|c r IH]; [reflexivity|].
  rewrite !string_app_cons, IH. reflexivity.
Qed.

Lemma break_last_dash_no_dash (s : string) :
  has_dash s = false -> break_last_dash s = None.
Proof.
  induction s as [|c s IH]; simpl; [reflexivity|].
  intros H. apply orb_false_iff in H as [Hc Hs].
  rewrite IH by exact Hs. rewrite Hc. reflexivity.
Qed.

Lemma break_last_dash_app (a b : string) :
  has_dash b = false -> break_last_dash (a +:+ String dash b) = Some (a, b).
Proof.
  intros Hb. induction a as [|c a IH].
  - change (EmptyString +:+ String dash b) with (String dash b). simpl.
    rewrite break_last_dash_no_dash by exact Hb. reflexivity.
  - rewrite string_app_cons. simpl. rewrite IH. reflexivity.
Qed.

Lemma rsplit_dash_2_app (p salt ts : string) :
  has_dash salt = false -> has_dash ts = false ->
  rsplit_dash_2 (p +:+ "-" +:+ salt +:+ "-" +:+ ts) = [p; salt; ts].
Proof.
  intros Hsalt Hts. unfold rsplit_dash_2.
  replace (p +:+ "-" +:+ salt +:+ "-" +:+ ts)
    with ((p +:+ String dash salt) +:+ String dash ts)
    by (rewrite string_app_assoc; reflexivity).
  rewrite break_last_dash_app by exact Hts.
  rewrite break_last_dash_app by exact Hsalt. reflexivity.
Qed.

Ltac run_m :=
  cbv [mbind M_bind mret M_ret get_self modify_self modify_template template raise].

(** ** C3: the name of scratch and isolated builds *)

(** C3. For a scratch or an isolated build whose image tag, after a
    trailing ['-<platform>'] is stripped when a platform is set, ends in
    two ['-']-delimited segments [salt] and [timestamp], render_name sets
    [metadata.name] to ['scratch-<salt>-<timestamp>'] for a scratch build
    and to ['isolated-<salt>-<timestamp>'] for an isolated one (which, by
    the check of set_params, is not also scratch). *)
Theorem render_name_variation (b : builder) (prefix salt timestamp : string)
  (Htag : strip_platform_suffix (up_platform (b_user_params b)) (up_image_tag (b_user_params b))
          = prefix +:+ "-" +:+ salt +:+ "-" +:+ timestamp)
  (Hsalt : has_dash salt = false) (Hts : has_dash timestamp = false) :
  (b_scratch b = true ->
   render_name b = (Ok tt, with_template b (doc_with_name (b_template b)
                     (Some ("scratch-" +:+ salt +:+ "-" +:+ timestamp))))) /\
  (b_isolated b = true -> b_scratch b = false ->
   render_name b = (Ok tt, with_template b (doc_with_name (b_template b)
                     (Some ("isolated-" +:+ salt +:+ "-" +:+ timestamp))))).
Proof.
  split.
  - intros Hs. unfold render_name. run_m.
    rewrite Hs. simpl. rewrite Htag, rsplit_dash_2_app by assumption. reflexivity.
  - intros Hi Hs. unfold render_name. run_m.
    rewrite Hs, Hi. simpl. rewrite Htag, rsplit_dash_2_app by assumption. reflexivity.
Qed.

(** Witness of [render_name_variation]: the tag myimage-abc123-20200101000000 under scratch. *)
Lemma render_name_variation_witness :
  render_name b_scratch0
  = (Ok tt, with_template b_scratch0
              (doc_with_name template0 (Some "scratch-abc123-20200101000000"))).
Proof.
  destruct (render_name_variation b_scratch0 "myimage" "abc123" "20200101000000"
              eq_refl eq_refl eq_refl) as [H _].
  exact (H eq_refl).
Defined.

Example render_name_isolated_example :
  d_name (b_template (snd (render_name b_isolated0)))
  = Some "isolated-abc123-20200101000000".
Proof. reflexivity. Qed.

Example render_name_platform_example :
  strip_platform_suffix (Some "x86_64") "myimage-abc123-20200101000000-x86_64"
  = "myimage-abc123-20200101000000".
Proof. reflexivity. Qed.

(** ** C4: node selectors *)

Lemma option_union_Some_l (v : string) (o : option string) : Some v ∪ o = Some v.
Proof. destruct o; reflexivity. Qed.

Lemma option_union_None_l (o : option string) : None ∪ o = o.
Proof. destruct o; reflexivity. Qed.

(** C4. For a worker build, render_node_selectors sets [spec.nodeSelector]
    to the auto-build selector if [is_auto], else the scratch-build
    selector if [scratch], else the isolated-build selector if [isolated],
    else the explicit-build selector, with the platform selector merged
    over it key by key (a platform key wins); every other field of the
    document is left as it was.  For any other build type (an
    orchestrator build) it changes nothing. *)
Theorem render_node_selectors_precedence (X : externals) (b : builder) (build_type : option string) :
  (build_type = Some (BUILD_TYPE_WORKER X) ->
   exists sel b',
     render_node_selectors X build_type b = (Ok tt, b') /\
     b_template b' = doc_with_node_selector (b_template b) (Some sel) /\
     forall k : string,
       sel !! k =
       match b_platform_node_selector b !! k with
       | Some v => Some v
       | None =>
           (if b_is_auto b then b_auto_build_node_selector b
            else if b_scratch b then b_scratch_build_node_selector b
            else if b_isolated b then b_isolated_build_node_selector b
            else b_explicit_build_node_selector b) !! k
       end) /\
  (build_type <> Some (BUILD_TYPE_WORKER X) ->
   render_node_selectors X build_type b = (Ok tt, b)).
Proof.
  split.
  - intros ->. unfold render_node_selectors. run_m.
    rewrite bool_decide_eq_true_2 by reflexivity.
    destruct (bool_decide (b_platform_node_selector b = ∅)) eqn:Hp.
    + apply bool_decide_eq_true_1 in Hp.
      exists (base_node_selector b), (with_template b (doc_with_node_selector (b_template b)
                                       (Some (base_node_selector b)))).
      split; [reflexivity|]. split; [reflexivity|].
      intros k. rewrite Hp, lookup_empty. reflexivity.
    + eexists (b_platform_node_selector b ∪ base_node_selector b), _.
      split; [reflexivity|]. split.
      * unfold update_base_node_selector. destruct b; cbn.
        repeat case_match; reflexivity.
      * intros k. rewrite lookup_union.
        destruct (b_platform_node_selector b !! k).
        -- apply option_union_Some_l.
        -- apply option_union_None_l.
  - intros Hne. unfold render_node_selectors. run_m.
    rewrite bool_decide_eq_false_2 by exact Hne. reflexivity.
Qed.

Example render_node_selectors_example :
  option_map (map_to_list (K:=string) (A:=string))
    (d_node_selector (b_template (snd (render_node_selectors X0 (Some "worker") b_auto0))))
  = Some [("pool", "auto"); ("zone", "a")] \/
  option_map (map_to_list (K:=string) (A:=string))
    (d_node_selector (b_template (snd (render_node_selectors X0 (Some "worker") b_auto0))))
  = Some [("zone", "a"); ("pool", "auto")].
Proof. vm_compute. auto. Qed.

(** ** C5: the reactor-config environment entry *)

(** C5. set_reactor_config appends at most one [REACTOR_CONFIG] entry to
    [customStrategy.env] and changes nothing else: the inline serialized
    override when [reactor_config_override] is set (whatever
    [reactor_config_map] is), else a [configMapKeyRef] to the map with key
    ['config.yaml'] when [reactor_config_map] is set, else nothing. *)
Theorem set_reactor_config_entry (X : externals) (b : builder) :
  let up := b_user_params b in
  let d := b_template b in
  (forall o, up_reactor_config_override up = Some o -> rc_truthy o = true ->
   set_reactor_config X b
   = (Ok tt, with_template b (doc_with_env d
                (d_env d ++ [EnvValue "REACTOR_CONFIG" (yaml_safe_dump X o)])%list))) /\
  (override_truthy up = false ->
   forall m, up_reactor_config_map up = Some m -> str_truthy (Some m) = true ->
   set_reactor_config X b
   = (Ok tt, with_template b (doc_with_env d
                (d_env d ++ [EnvConfigMapKeyRef "REACTOR_CONFIG" m "config.yaml"])%list))) /\
  (override_truthy up = false -> str_truthy (up_reactor_config_map up) = false ->
   set_reactor_config X b = (Ok tt, b)).
Proof.
  intros up d. unfold set_reactor_config, reactor_config_entry, override_truthy in *.
  run_m. subst up d. split; [|split].
  - intros o Ho Ht. rewrite Ho. cbn. rewrite Ht.
    destruct (str_truthy (up_reactor_config_map (b_user_params b))); reflexivity.
  - intros Hov m Hm Hmt. rewrite Hm, Hmt. simpl.
    destruct (up_reactor_config_override (b_user_params b)) as [o|]; simpl.
    + rewrite Hov. reflexivity.
    + reflexivity.
  - intros Hov Hmt. rewrite Hov, Hmt. reflexivity.
Qed.

Example set_reactor_config_example :
  let up := mk_user_params "n" None "t" None None
              (Some (mk_rc_data (Some (Some ["kojisecret"])) None None None None []))
              (Some "reactor-config-map") None None None None None None None false 0 0 in
  let b := with_template (mk_builder template0 false false false None None ∅ ∅ ∅ ∅ ∅
                            None false None None None None up) template0 in
  d_env (b_template (snd (set_reactor_config X0 b)))
  = [EnvValue "ATOMIC_REACTOR_PLUGINS" "{}";
     EnvValue "REACTOR_CONFIG" "required_secrets: [kojisecret]"].
Proof. reflexivity. Qed.

(** ** C6: required-secrets injection *)

Lemma filter_nil_of {A} (P : A -> Prop) `{forall x, Decision (P x)} (l : list A) :
  (forall x, x ∈ l -> ~ P x) -> filter P l = [].
Proof.
  induction l as [|x l IH]; intros Hl; [reflexivity|].
  rewrite filter_cons. rewrite decide_False by (apply Hl; left).
  apply IH. intros y Hy. apply Hl. right. exact Hy.
Qed.

Section secrets.
Variable X : externals.

Definition mount_for (s : string) : secret_mount :=
  mk_secret_mount s (os_path_join (SECRETS_PATH X) s).

Lemma names_of_mounts (l : list string) :
  map secret_source_name (map mount_for l) = l.
Proof. induction l as [|x l IH]; simpl; [reflexivity|]. rewrite IH. reflexivity. Qed.

Lemma filter_mounts_absent (n : string) (l : list string) :
  n ∉ l -> filter (fun m => secret_source_name m = n) (map mount_for l) = [].
Proof.
  intros Hn. apply filter_nil_of. intros m Hm Heq. apply Hn.
  apply list_elem_of_In in Hm. apply in_map_iff in Hm as [s [<- Hs]].
  simpl in Heq. subst. apply list_elem_of_In. exact Hs.
Qed.

Lemma filter_mounts_single (n : string) (l : list string) :
  NoDup l -> n ∈ l ->
  filter (fun m => secret_source_name m = n) (map mount_for l) = [mount_for n].
Proof.
  induction l as [|x l IH]; intros Hnd Hn; [inversion Hn|].
  apply NoDup_cons in Hnd as [Hx Hnd]. simpl. rewrite filter_cons. simpl.
  destruct (decide (x = n)) as [->|Hne].
  - rewrite filter_mounts_absent by exact Hx. reflexivity.
  - apply IH; [exact Hnd|]. apply elem_of_cons in Hn as [->|Hn]; [congruence|exact Hn].
Qed.

Lemma new_secret_mounts_covered (existing : list secret_mount) (required : list string) :
  new_secret_mounts X (existing ++ new_secret_mounts X existing required) required = [].
Proof.
  unfold new_secret_mounts.
  rewrite (filter_nil_of _ (remove_dups required)); [reflexivity|].
  intros s Hsin Hs. apply Hs.
  rewrite map_app. apply elem_of_app.
  destruct (decide (s ∈ map secret_source_name existing)) as [Hin|Hout]; [left; exact Hin|].
  right. rewrite (names_of_mounts (filter _ _)).
  apply list_elem_of_filter. split; [exact Hout|exact Hsin].
Qed.
End secrets.

Lemma new_secret_mounts_eq (X : externals) (e : list secret_mount) (r : list string) :
  new_secret_mounts X e r
  = map (mount_for X) (filter (fun s => s ∉ map secret_source_name e) (remove_dups r)).
Proof. reflexivity. Qed.

Lemma set_required_secrets_doc_cons (X : externals) (x : string) (r : list string) (d : doc) :
  set_required_secrets_doc X (x :: r) d
  = doc_with_secrets d (Some (default [] (d_secrets d) ++
                              new_secret_mounts X (default [] (d_secrets d)) (x :: r))%list).
Proof. reflexivity. Qed.

Lemma doc_with_secrets_twice (d : doc) (v w : option (list secret_mount)) :
  doc_with_secrets (doc_with_secrets d v) w = doc_with_secrets d w.
Proof. destruct d; reflexivity. Qed.

(** C6 (as amended).  Injecting the required secrets [names] into a
    document and injecting them again changes nothing the second time;
    after the first injection each name that was not mounted has exactly
    one mount entry, with [mountPath] [os.path.join(SECRETS_PATH, name)],
    and the entries of a name that was already mounted are exactly the
    ones it had (none is added). *)
Theorem set_required_secrets_idempotent (X : externals) (names : list string) (d : doc) :
  let d1 := set_required_secrets_doc X names d in
  let existing := map secret_source_name (default [] (d_secrets d)) in
  set_required_secrets_doc X names d1 = d1 /\
  (forall n, n ∈ names -> n ∉ existing ->
     filter (fun m => secret_source_name m = n) (default [] (d_secrets d1))
     = [mk_secret_mount n (os_path_join (SECRETS_PATH X) n)]) /\
  (forall n, n ∈ existing ->
     filter (fun m => secret_source_name m = n) (default [] (d_secrets d1))
     = filter (fun m => secret_source_name m = n) (default [] (d_secrets d))).
Proof.
  intros d1 existing. subst d1.
  destruct names as [|x r].
  - split; [reflexivity|]. split; [|reflexivity].
    intros n Hn. inversion Hn.
  - rewrite !set_required_secrets_doc_cons.
    cbn [d_secrets doc_with_secrets default id].
    set (S := default [] (d_secrets d)).
    split; [|split].
    + rewrite new_secret_mounts_covered, app_nil_r, doc_with_secrets_twice.
      reflexivity.
    + intros n Hn Hout. rewrite filter_app.
      rewrite (filter_nil_of _ S).
      2:{ intros m Hm Heq. apply Hout. subst existing. fold S. rewrite <- Heq.
          apply list_elem_of_In. apply in_map. apply list_elem_of_In. exact Hm. }
      rewrite new_secret_mounts_eq, filter_mounts_single; [reflexivity| |].
      * apply NoDup_filter, NoDup_remove_dups.
      * apply list_elem_of_filter. split; [exact Hout|].
        apply elem_of_remove_dups. exact Hn.
    + intros n Hin. rewrite filter_app, new_secret_mounts_eq, filter_mounts_absent, app_nil_r;
        [reflexivity|].
      intros Hn. apply list_elem_of_filter in Hn as [Hn _]. apply Hn. exact Hin.
Qed.

(** C6 as stated fails when the document already mounts a name twice:
    injecting it twice leaves two entries for it, not one. *)
Lemma set_required_secrets_duplicate_mounts :
  let d := doc_with_secrets template0
             (Some [mk_secret_mount "kojisecret" "/var/run/secrets/atomic-reactor/kojisecret";
                    mk_secret_mount "kojisecret" "/var/run/secrets/atomic-reactor/kojisecret"]) in
  length (filter (fun m => secret_source_name m = "kojisecret")
            (default [] (d_secrets (set_required_secrets_doc X0 ["kojisecret"]
                                      (set_required_secrets_doc X0 ["kojisecret"] d)))))
  = 2%nat.
Proof. vm_compute. reflexivity. Qed.

Example set_required_secrets_example :
  d_secrets (set_required_secrets_doc X0 ["kojisecret"; "kojisecret"] template0)
  = Some [mk_secret_mount "kojisecret" "/var/run/secrets/atomic-reactor/kojisecret"].
Proof. vm_compute. reflexivity. Qed.

(** ** C1: mutually exclusive build variations *)

Definition variation_error : py_error :=
  OsbsValidationException
    "Build variations are mutually exclusive. Must set either scratch, is_auto, isolated, or none. ".

(** C1. set_params never touches the template document.  When more than
    one of the flags [scratch], [is_auto], [isolated] is passed as true it
    raises the variation ValidationError; when at most one is, any
    exception it raises is the one [user_params.set_params] raises, not
    this check's. *)
Theorem set_params_variation_check (X : externals) (kw : kwargs) (b : builder) :
  let n := variation_count (flag (kw_scratch kw)) (flag (kw_is_auto kw)) (flag (kw_isolated kw)) in
  b_template (snd (set_params X kw b)) = b_template b /\
  ((1 < n)%nat -> fst (set_params X kw b) = Err variation_error) /\
  ((n <= 1)%nat -> forall e, fst (set_params X kw b) = Err e ->
     user_params_set_params X (kwargs_for_user_params kw) (b_user_params b) = Err e).
Proof.
  intros n. unfold set_params, validate_build_variation. run_m.
  cbn -[variation_count]. fold n. clearbody n.
  destruct n as [|[|m]].
  1,2: cbn; destruct (user_params_set_params X (kwargs_for_user_params kw) (b_user_params b)) eqn:Hup;
      cbn; (split; [reflexivity|]); (split; [intros; lia|]);
      intros _ e' He; [discriminate He|injection He as <-; reflexivity].
  split; [reflexivity|]. split; [reflexivity|]. intros Hle. lia.
Qed.

Example set_params_variation_example :
  fst (set_params X0 (mk_kwargs (Some true) (Some true) None None None None None
                        None None None None None []) b0) = Err variation_error.
Proof. reflexivity. Qed.

(** ** C9: loading the template *)

(** C9.  While nothing is cached, an access opens the file: a file that
    cannot be opened raises OsbsException, content that is not JSON raises
    the parser's ValueError.  Once an access has returned a value other
    than JSON [null], every later access returns that same value and opens
    nothing, whatever the file holds by then.  A file whose JSON content
    is [null] is never cached: [None] is also the mark of a template not
    yet loaded, so [n] accesses open the file [n] times. *)
Theorem template_memoized (fs : string -> TemplateStore.file) (dir path : string) :
  (forall st, TemplateStore.cached st = TemplateStore.JNull ->
   fs (os_path_join dir path) = TemplateStore.CannotOpen ->
   exists msg, fst (TemplateStore.template fs dir path st) = Err (OsbsException msg)) /\
  (forall st, TemplateStore.cached st = TemplateStore.JNull ->
   fs (os_path_join dir path) = TemplateStore.NotJson ->
   exists msg, fst (TemplateStore.template fs dir path st) = Err (ValueError msg)) /\
  (forall st v st', TemplateStore.template fs dir path st = (Ok v, st') ->
   v <> TemplateStore.JNull ->
   forall fs', TemplateStore.template fs' dir path st' = (Ok v, st')) /\
  (fs (os_path_join dir path) = TemplateStore.Parses TemplateStore.JNull ->
   forall n st, TemplateStore.cached st = TemplateStore.JNull ->
   TemplateStore.cached (TemplateStore.accesses fs dir path n st) = TemplateStore.JNull /\
   TemplateStore.opens (TemplateStore.accesses fs dir path n st) =
     (n + TemplateStore.opens st)%nat).
Proof.
  split; [|split; [|split]].
  - intros st Hc Hf. unfold TemplateStore.template. rewrite Hc, Hf. eexists. reflexivity.
  - intros st Hc Hf. unfold TemplateStore.template. rewrite Hc, Hf. eexists. reflexivity.
  - intros st v st' H Hv fs'. unfold TemplateStore.template in H.
    destruct (TemplateStore.cached st) eqn:Hc.
    + destruct (fs (os_path_join dir path)); try discriminate H.
      injection H as Hv' Hst. subst. unfold TemplateStore.template. cbn.
      destruct v; [congruence|reflexivity|reflexivity].
    + injection H as Hv' Hst. subst. unfold TemplateStore.template. rewrite Hc. reflexivity.
    + injection H as Hv' Hst. subst. unfold TemplateStore.template. rewrite Hc. reflexivity.
  - intros Hf n. induction n as [|n IH]; intros st Hc; [split; [exact Hc|reflexivity]|].
    cbn [TemplateStore.accesses]. unfold TemplateStore.template. rewrite Hc, Hf.
    cbn [snd TemplateStore.opens TemplateStore.cached].
    destruct (IH (TemplateStore.mk_store TemplateStore.JNull
                              (S (TemplateStore.opens st))) eq_refl) as [IH1 IH2].
    split; [exact IH1|]. rewrite IH2. cbn [TemplateStore.opens]. lia.
Qed.

(** Loading is not memoized for a template file whose JSON content is
    [null]: [None] both marks the cache as empty and is the loaded value,
    so two accesses open the file twice. *)
Lemma template_null_reopened :
  let fs := fun _ : string => TemplateStore.Parses TemplateStore.JNull in
  let st1 := snd (TemplateStore.template fs "/usr/share/osbs" "orchestrator.json"
                    TemplateStore.initial) in
  TemplateStore.opens (snd (TemplateStore.template fs "/usr/share/osbs" "orchestrator.json" st1))
  = 2%nat.
Proof. reflexivity. Qed.

(** ** Reasoning about the render pipeline *)

Lemma bind_ok_inv {A B} (m : M A) (k : A -> M B) (b : builder) (c : B) (b'' : builder) :
  (x ← m; k x) b = (Ok c, b'') ->
  exists a b1, m b = (Ok a, b1) /\ k a b1 = (Ok c, b'').
Proof.
  cbv [mbind M_bind]. destruct (m b) as [[a|e] b1]; intros H; [|discriminate H].
  exists a, b1. split; [reflexivity|exact H].
Qed.

Ltac split_bind H :=
  apply bind_ok_inv in H; destruct H as (? & ? & ? & H); cbv beta in H.

Ltac split_bind_as H Hs :=
  apply bind_ok_inv in H; destruct H as (? & ? & Hs & H); cbv beta in H.

Section preserves_rules.
Context (R : builder -> builder -> Prop) `{!PreOrder R}.

Lemma pres_bind {A B} (m : M A) (k : A -> M B) :
  preserves R m -> (forall a, preserves R (k a)) -> preserves R (x ← m; k x).
Proof.
  intros Hm Hk b r b'. cbv [mbind M_bind].
  destruct (m b) as [[a|e] b1] eqn:E; intros H.
  - etrans; [eapply Hm; exact E|eapply Hk; exact H].
  - injection H as _ <-. eapply Hm; exact E.
Qed.

Lemma pres_ret {A} (a : A) : preserves R (mret a).
Proof. intros b r b' H. injection H as _ <-. reflexivity. Qed.

Lemma pres_get_self : preserves R get_self.
Proof. intros b r b' H. injection H as _ <-. reflexivity. Qed.

Lemma pres_template : preserves R template.
Proof. intros b r b' H. injection H as _ <-. reflexivity. Qed.

Lemma pres_raise {A} (e : py_error) : preserves R (raise (A:=A) e).
Proof. intros b r b' H. injection H as _ <-. reflexivity. Qed.

Lemma pres_modify_self (f : builder -> builder) :
  (forall b, R b (f b)) -> preserves R (modify_self f).
Proof. intros Hf b r b' H. injection H as _ <-. apply Hf. Qed.

Lemma pres_modify_template (f : doc -> doc) :
  (forall b, R b (with_template b (f (b_template b)))) -> preserves R (modify_template f).
Proof. intros Hf. apply pres_modify_self, Hf. Qed.

End preserves_rules.

Create HintDb pres.

Ltac head_of t :=
  lazymatch t with
  | ?f _ => head_of f
  | _ => t
  end.

(** Take [preserves R m] apart along the structure of [m], unfolding the
    methods it calls; [leaf] proves what is left at each state update. *)
Ltac pres_go leaf :=
  repeat (cbv beta zeta;
  lazymatch goal with
  | |- preserves _ (mbind _ _) => apply pres_bind; [exact _| |intros ?]
  | |- preserves _ (mret _) => apply pres_ret; exact _
  | |- preserves _ get_self => apply pres_get_self; exact _
  | |- preserves _ template => apply pres_template; exact _
  | |- preserves _ (raise _) => apply pres_raise; exact _
  | |- preserves _ (modify_template _) => apply pres_modify_template; leaf
  | |- preserves _ (modify_self _) => apply pres_modify_self; leaf
  | |- preserves _ (match ?x with _ => _ end) => destruct x
  | |- preserves _ ?m =>
      first [ solve [eauto with pres]
            | let h := head_of m in progress unfold h ]
  end).

Global Instance same_flags_preorder : PreOrder same_flags.
Proof.
  split.
  - intros b. repeat split.
  - intros b1 b2 b3 (? & ? & ? & ? & ? & ? & ?) (? & ? & ? & ? & ? & ? & ?).
    repeat split; congruence.
Qed.

Global Instance labels_from_preorder (X : externals) : PreOrder (labels_from X).
Proof.
  split.
  - intros b k v H. left. exact H.
  - intros b1 b2 b3 H12 H23 k v H.
    destruct (H23 k v H) as [H2|Hs]; [exact (H12 k v H2)|right; exact Hs].
Qed.

Global Instance trig_rel_preorder : PreOrder trig_rel.
Proof.
  split.
  - intros b. split; auto.
  - intros b1 b2 b3 [A1 B1] [A2 B2]. split; auto.
Qed.

Global Instance same_base_image_preorder : PreOrder same_base_image.
Proof. split; [intros b; reflexivity|intros b1 b2 b3 H1 H2; unfold same_base_image in *; congruence]. Qed.

Global Instance same_labels_preorder : PreOrder same_labels.
Proof. split; [intros b; reflexivity|intros b1 b2 b3 H1 H2; unfold same_labels in *; congruence]. Qed.

Ltac leaf_flags :=
  intros [? ? ? ? ? ? ? ? ? ? ? ? ? ? ? ? ? ?];
  cbv [update_base_node_selector with_template with_base_image with_source_registry
       with_organization with_scratch_selector with_explicit_selector with_auto_selector
       with_isolated_selector];
  cbn; repeat case_match; cbn in *; (repeat split); congruence.

Lemma base_render_flags (X : externals) (v : bool) : preserves same_flags (base_render X v).
Proof. pres_go leaf_flags. Qed.

Lemma render_v2_until_isolated_flags (X : externals) :
  preserves same_flags (render_v2_until_isolated X).
Proof. pres_go leaf_flags. Qed.

Lemma render_from_isolated_flags (X : externals) :
  preserves same_flags (render_from_isolated X).
Proof. pres_go leaf_flags. Qed.

Lemma render_until_isolated_flags (X : externals) (v : bool) :
  preserves same_flags (render_until_isolated X v).
Proof. pres_go leaf_flags. Qed.

(** Labels *)

Lemma set_label_labels_from (X : externals) (name : string) (value : option string) :
  preserves (labels_from X) (set_label X name value).
Proof.
  intros b r b' H. unfold set_label in H. run_m. injection H as _ <-.
  intros k w Hk. unfold label_of in Hk. cbn in Hk.
  destruct (decide (name = k)) as [<-|Hne].
  - rewrite lookup_insert_eq in Hk. injection Hk as <-. right. eexists. reflexivity.
  - rewrite lookup_insert_ne in Hk by exact Hne. left. unfold label_of.
    destruct (d_labels (b_template b)); cbn in Hk; [exact Hk|].
    rewrite lookup_empty in Hk. discriminate Hk.
Qed.

#[local] Hint Resolve set_label_labels_from : pres.

Ltac leaf_labels :=
  intros [[? ? ? ? ? ? ? ? ? ? ? ? ?] ? ? ? ? ? ? ? ? ? ? ? ? ? ? ? ? ?];
  cbv [update_base_node_selector with_template with_base_image with_source_registry
       with_organization with_scratch_selector with_explicit_selector with_auto_selector
       with_isolated_selector set_required_secrets_doc];
  repeat case_match; intros ? ? ?; left; assumption.

Lemma base_render_labels (X : externals) (v : bool) : preserves (labels_from X) (base_render X v).
Proof. pres_go leaf_labels. Qed.

Lemma render_v2_tail_labels (X : externals) : preserves (labels_from X) (render_v2_tail X).
Proof. pres_go leaf_labels. Qed.

(** Triggers *)

Lemma set_first_trigger_trig_rel (X : externals) (v : option string) :
  preserves trig_rel (set_first_trigger_from_name v).
Proof.
  intros b r b' H. unfold set_first_trigger_from_name in H.
  cbv [mbind M_bind mret M_ret modify_self modify_template template raise] in H.
  destruct (d_triggers (b_template b)) as [[|t ts]|] eqn:E; cbn in H;
    [injection H as _ <-; reflexivity| |injection H as _ <-; reflexivity].
  destruct (t_image_change t) as [[f|]|]; cbn in H; injection H as _ <-; [|reflexivity|reflexivity].
  unfold trig_rel, trig, triggers_shaped. destruct b as [[] ? ? ? ? ? ? ? ? ? ? ? ? ? ? ? ? ?].
  cbn in *. split; [intros; congruence|]. intros _. right. eauto.
Qed.

#[local] Hint Resolve set_first_trigger_trig_rel : pres.

Ltac leaf_trig :=
  intros [[? ? ? ? ? ? ? ? ? ? ? ? ?] ? ? ? ? ? ? ? ? ? ? ? ? ? ? ? ? ?];
  cbv [update_base_node_selector with_template with_base_image with_source_registry
       with_organization with_scratch_selector with_explicit_selector with_auto_selector
       with_isolated_selector set_required_secrets_doc];
  repeat case_match; unfold trig_rel, trig, triggers_shaped; cbn;
  split; intros; first [assumption|reflexivity|left; reflexivity].

Lemma base_render_trig (X : externals) (v : bool) : preserves trig_rel (base_render X v).
Proof. pres_go leaf_trig. Qed.

Lemma render_v2_labels_trig (X : externals) : preserves trig_rel (render_v2_labels X).
Proof. pres_go leaf_trig. Qed.

Lemma adjust_for_repo_info_trig : preserves trig_rel adjust_for_repo_info.
Proof. pres_go leaf_trig. Qed.

Lemma render_from_isolated_trig (X : externals) : preserves trig_rel (render_from_isolated X).
Proof. pres_go leaf_trig. Qed.

Lemma render_v2_tail_trig (X : externals) : preserves trig_rel (render_v2_tail X).
Proof. pres_go leaf_trig. Qed.

(** The base image and the labels *)

Ltac leaf_same :=
  intros [[? ? ? ? ? ? ? ? ? ? ? ? ?] ? ? ? ? ? ? ? ? ? ? ? ? ? ? ? ? ?];
  cbv [update_base_node_selector with_template with_base_image with_source_registry
       with_organization with_scratch_selector with_explicit_selector with_auto_selector
       with_isolated_selector set_required_secrets_doc same_base_image same_labels];
  repeat case_match; reflexivity.

Lemma remove_triggers_base_image :
  preserves same_base_image remove_triggers_for_base_image.
Proof. pres_go leaf_same. Qed.

Lemma adjust_for_repo_info_base_image : preserves same_base_image adjust_for_repo_info.
Proof. pres_go leaf_same. Qed.

Lemma render_from_isolated_base_image (X : externals) :
  preserves same_base_image (render_from_isolated X).
Proof. pres_go leaf_same. Qed.

Lemma after_isolated_labels (X : externals) (bt : option string) :
  preserves same_labels (render_node_selectors X bt;; _set_deadline X;; template).
Proof. pres_go leaf_same. Qed.

Lemma render_v2_until_isolated_trig (X : externals) :
  preserves trig_rel (render_v2_until_isolated X).
Proof. pres_go leaf_trig. Qed.

Lemma after_isolated_trig (X : externals) (bt : option string) :
  preserves trig_rel (render_node_selectors X bt;; _set_deadline X;; template).
Proof. pres_go leaf_trig. Qed.

Lemma render_until_isolated_labels (X : externals) (v : bool) :
  preserves (labels_from X) (render_until_isolated X v).
Proof. pres_go leaf_labels. Qed.

Lemma render_from_isolated_labels (X : externals) :
  preserves (labels_from X) (render_from_isolated X).
Proof. pres_go leaf_labels. Qed.

(** ** The stages of a successful render *)

Lemma get_self_inv (b b1 b2 : builder) : get_self b = (Ok b1, b2) -> b1 = b /\ b2 = b.
Proof. intros H. injection H as <- <-. split; reflexivity. Qed.

Lemma render_split (X : externals) (v : bool) (b : builder) :
  render X v b = (render_until_isolated X v;; render_from_isolated X) b.
Proof.
  unfold render, render_v2_tail, render_until_isolated. cbv [mbind M_bind].
  destruct (base_render X v b) as [[[]|e] b1]; [|reflexivity].
  destruct (render_v2_until_isolated X b1) as [[[]|e] b2]; reflexivity.
Qed.

Lemma render_from_isolated_inv (X : externals) (b b' : builder) (doc : doc) :
  render_from_isolated X b = (Ok doc, b') ->
  exists b1, adjust_for_isolated X (up_release (b_user_params b)) b = (Ok tt, b1) /\
    (render_node_selectors X (up_build_type (b_user_params b));; _set_deadline X;; template) b1
      = (Ok doc, b') /\
    doc = b_template b'.
Proof.
  intros H. unfold render_from_isolated in H.
  split_bind H. apply get_self_inv in H0 as [-> ->].
  split_bind H. destruct x. exists x0. split; [exact H0|]. split; [exact H|].
  split_bind H. split_bind H. injection H as <- <-. reflexivity.
Qed.

Lemma render_inv (X : externals) (v : bool) (b b' : builder) (doc : doc) :
  render X v b = (Ok doc, b') ->
  exists b1 b4,
    base_render X v b = (Ok tt, b1) /\
    render_v2_until_isolated X b1 = (Ok tt, b4) /\
    render_from_isolated X b4 = (Ok doc, b').
Proof.
  intros H. unfold render, render_v2_tail in H.
  split_bind H. destruct x. split_bind H. destruct x.
  exists x0, x1. auto.
Qed.

Lemma render_v2_until_isolated_inv (X : externals) (b b4 : builder) :
  render_v2_until_isolated X b = (Ok tt, b4) ->
  exists b2 b3,
    render_v2_labels X b = (Ok tt, b2) /\
    remove_triggers_for_base_image b2 = (Ok tt, b3) /\
    adjust_for_repo_info b3 = (Ok tt, b4).
Proof.
  intros H. unfold render_v2_until_isolated in H.
  split_bind H. destruct x. split_bind H. destruct x.
  exists x0, x1. auto.
Qed.

(** From [H : m b = (r, b')], the relation [R] between [b] and [b']. *)
Ltac pres_in R H leaf :=
  lazymatch type of H with
  | ?m ?b = (?r, ?b') =>
      let HP := fresh "HP" in
      assert (HP : preserves R m) by (pres_go leaf);
      specialize (HP b r b' H)
  end.

(** [adjust_for_scratch] of a scratch build, and what the base render
    keeps of it. *)
Lemma base_render_scratch (X : externals) (v : bool) (b b1 : builder) :
  b_scratch b = true -> base_render X v b = (Ok tt, b1) -> trig b1 = None.
Proof.
  intros Hs H. unfold base_render in H.
  split_bind H. apply get_self_inv in H0 as [-> ->].
  destruct (b_osbs_api b); [|discriminate H].
  do 5 (let Hs := fresh "Hs" in split_bind_as H Hs; pres_in same_flags Hs leaf_flags).
  split_bind H.
  assert (Hs5 : b_scratch x8 = true).
  { repeat match goal with Hf : same_flags _ _ |- _ => destruct Hf as [? _] end. congruence. }
  unfold adjust_for_scratch in H0.
  cbv [mbind M_bind get_self modify_self modify_template mret M_ret set_label] in H0.
  rewrite Hs5 in H0. injection H0 as _ <-.
  pres_in trig_rel H leaf_trig.
  match goal with Ht : trig_rel _ _ |- _ => apply (proj1 Ht) end. reflexivity.
Qed.

Lemma adjust_for_isolated_ok (X : externals) (release : option string) (b b' : builder) :
  b_isolated b = true -> adjust_for_isolated X release b = (Ok tt, b') ->
  trig b' = None /\
  exists r, release = Some r /\ str_truthy release = true /\
    ISOLATED_RELEASE_FORMAT_match X r = true /\
    label_of (b_template b') "isolated" = Some (Some (sanitize_strings_for_openshift X "true")) /\
    label_of (b_template b') "isolated-release" = Some (Some (sanitize_strings_for_openshift X r)).
Proof.
  intros Hi H. unfold adjust_for_isolated in H.
  cbv [mbind M_bind get_self modify_self modify_template mret M_ret raise set_label] in H.
  rewrite Hi in H. cbn in H.
  destruct (str_truthy release) eqn:Ht; cbn in H; [|discriminate H].
  destruct release as [r|]; [|discriminate Ht]. cbn in H.
  destruct (ISOLATED_RELEASE_FORMAT_match X r) eqn:Hm; cbn in H; [|discriminate H].
  destruct r as [|c r']; [discriminate Ht|]. cbn in H. injection H as <-.
  split; [reflexivity|]. exists (String c r'). repeat split; [exact Hm| |].
  - unfold label_of. cbn. rewrite lookup_insert_ne by discriminate.
    rewrite lookup_insert_eq. reflexivity.
  - unfold label_of. cbn. rewrite lookup_insert_eq. reflexivity.
Qed.

(** ** C7: isolated builds and their release *)

(** C7.  For an isolated build whose render gets as far as
    [adjust_for_isolated], an empty release raises the ValidationError
    asking for it, and a release that [ISOLATED_RELEASE_FORMAT] does not
    match raises the ValidationError that quotes the pattern; and every
    successful render of an isolated build had a matching release and
    leaves the labels [isolated] = ["true"] and [isolated-release] = the
    release, through [set_label]. *)
Theorem render_isolated_release (X : externals) (v : bool) (b : builder)
  (Hi : b_isolated b = true) :
  (forall b1, render_until_isolated X v b = (Ok tt, b1) ->
   str_truthy (up_release (b_user_params b)) = false ->
   fst (render X v b) =
     Err (OsbsValidationException "The release parameter is required for isolated builds.")) /\
  (forall b1, render_until_isolated X v b = (Ok tt, b1) ->
   str_truthy (up_release (b_user_params b)) = true ->
   ISOLATED_RELEASE_FORMAT_match X (default "" (up_release (b_user_params b))) = false ->
   fst (render X v b) =
     Err (OsbsValidationException
            ("For isolated builds, the release value must be in the format: "
             +:+ ISOLATED_RELEASE_FORMAT_pattern X))) /\
  (forall doc b', render X v b = (Ok doc, b') ->
   exists r, up_release (b_user_params b) = Some r /\
     ISOLATED_RELEASE_FORMAT_match X r = true /\
     label_of doc "isolated" = Some (Some (sanitize_strings_for_openshift X "true")) /\
     label_of doc "isolated-release" = Some (Some (sanitize_strings_for_openshift X r))).
Proof.
  split; [|split].
  - intros b1 Hpre Hr. rewrite render_split. cbv [mbind M_bind]. rewrite Hpre.
    destruct (render_until_isolated_flags X v _ _ _ Hpre) as (_ & _ & Hi1 & Hup & _).
    unfold render_from_isolated, adjust_for_isolated.
    cbv [mbind M_bind get_self modify_self modify_template raise mret M_ret].
    rewrite Hi1, Hi, Hup, Hr. reflexivity.
  - intros b1 Hpre Hr Hm. rewrite render_split. cbv [mbind M_bind]. rewrite Hpre.
    destruct (render_until_isolated_flags X v _ _ _ Hpre) as (_ & _ & Hi1 & Hup & _).
    unfold render_from_isolated, adjust_for_isolated.
    cbv [mbind M_bind get_self modify_self modify_template raise mret M_ret].
    rewrite Hi1, Hi, Hup, Hr, Hm. reflexivity.
  - intros doc b' H. rewrite render_split in H.
    split_bind H. destruct x as [].
    destruct (render_until_isolated_flags X v _ _ _ H0) as (_ & _ & Hi1 & Hup & _).
    destruct (render_from_isolated_inv _ _ _ _ H) as (b5 & H5 & H6 & ->).
    rewrite Hup in H5.
    destruct (adjust_for_isolated_ok _ _ _ _ (eq_trans Hi1 Hi) H5)
      as (_ & r & Hrel & _ & Hm & Hl1 & Hl2).
    pose proof (after_isolated_labels X _ _ _ _ H6) as HL.
    exists r. split; [exact Hrel|]. split; [exact Hm|].
    unfold label_of, same_labels in *. rewrite HL. split; assumption.
Qed.

Lemma render_isolated_release_witness :
  b_isolated b_isolated0 = true /\
  (exists r, up_release (b_user_params b_isolated0) = Some r /\
     ISOLATED_RELEASE_FORMAT_match X0 r = true /\
     label_of (b_template (snd (render X0 true b_isolated0))) "isolated" =
       Some (Some (sanitize_strings_for_openshift X0 "true")) /\
     label_of (b_template (snd (render X0 true b_isolated0))) "isolated-release" =
       Some (Some (sanitize_strings_for_openshift X0 r))).
Proof.
  split; [reflexivity|].
  apply (proj2 (proj2 (render_isolated_release X0 true b_isolated0 eq_refl))
           (b_template (snd (render X0 true b_isolated0))) (snd (render X0 true b_isolated0))).
  vm_compute. reflexivity.
Defined.

(** The two errors on concrete isolated builds: no release, and the
    release ["1.0"] against a pattern it does not match. *)
Example render_isolated_no_release :
  fst (render X0 true b_isolated_norelease0)
  = Err (OsbsValidationException "The release parameter is required for isolated builds.").
Proof. vm_compute. reflexivity. Qed.

Example render_isolated_bad_release :
  fst (render X0 true b_isolated_badrelease0)
  = Err (OsbsValidationException
           "For isolated builds, the release value must be in the format: ^1\.").
Proof. vm_compute. reflexivity. Qed.

(** ** C8: custom and scratch base images *)

Lemma remove_triggers_ok (b b' : builder) :
  remove_triggers_for_base_image b = (Ok tt, b') ->
  triggers_shaped (trig b) ->
  (is_custom_base_image b || is_from_scratch_image b) = true ->
  trig b' = None.
Proof.
  intros H Hs Hc. unfold remove_triggers_for_base_image in H.
  cbv [mbind M_bind template get_self modify_self modify_template mret M_ret] in H.
  rewrite Hc, andb_true_r in H.
  destruct (triggers_truthy (b_template b)) eqn:Etr; injection H as <-; [reflexivity|].
  destruct Hs as [E|(x & xs & E)]; [exact E|].
  unfold triggers_truthy, trig in *. rewrite E in Etr. discriminate Etr.
Qed.

(** C8.  When the template defines triggers (a non-empty
    [spec.triggers]) and the base image of the build (the one in effect
    at the end of [render], after a flatpak base image has replaced it) is
    a custom base image [koji/image-build[:tag]] or [scratch], a
    successful render yields a document without [spec.triggers]. *)
Theorem render_custom_base_image_no_triggers (X : externals) (v : bool) (b b' : builder)
  (doc : doc) (t : trigger) (ts : list trigger) :
  d_triggers (b_template b) = Some (t :: ts) ->
  render X v b = (Ok doc, b') ->
  (is_custom_base_image b' || is_from_scratch_image b') = true ->
  d_triggers doc = None.
Proof.
  intros Ht H Hc.
  destruct (render_inv _ _ _ _ _ H) as (b1 & b4 & H1 & H2 & H3).
  destruct (render_v2_until_isolated_inv _ _ _ H2) as (b2 & b3 & H21 & H22 & H23).
  destruct (render_from_isolated_inv _ _ _ _ H3) as (b5 & H5 & H6 & ->).
  pose proof (base_render_trig X v _ _ _ H1) as T1.
  pose proof (render_v2_labels_trig X _ _ _ H21) as T2.
  assert (S2 : triggers_shaped (trig b2)).
  { apply (proj2 T2), (proj2 T1). right. exists t, ts. exact Ht. }
  pose proof (remove_triggers_base_image _ _ _ H22) as B2.
  pose proof (adjust_for_repo_info_base_image _ _ _ H23) as B3.
  pose proof (render_from_isolated_base_image X _ _ _ H3) as B4.
  assert (Hc2 : (is_custom_base_image b2 || is_from_scratch_image b2) = true).
  { unfold is_custom_base_image, is_from_scratch_image, same_base_image in *.
    rewrite <- B2, <- B3, <- B4. exact Hc. }
  pose proof (remove_triggers_ok _ _ H22 S2 Hc2) as N3.
  pose proof (adjust_for_repo_info_trig _ _ _ H23) as T3.
  pose proof (render_from_isolated_trig X _ _ _ H3) as T4.
  exact (proj1 T4 (proj1 T3 N3)).
Qed.

Lemma render_custom_base_image_no_triggers_witness :
  d_triggers (b_template b_custom0) = Some [ist_trigger] /\
  (is_custom_base_image (snd (render X0 true b_custom0)) ||
   is_from_scratch_image (snd (render X0 true b_custom0))) = true /\
  d_triggers (b_template (snd (render X0 true b_custom0))) = None.
Proof.
  split; [reflexivity|]. split; [vm_compute; reflexivity|].
  apply (render_custom_base_image_no_triggers X0 true b_custom0 (snd (render X0 true b_custom0))
           (b_template (snd (render X0 true b_custom0))) ist_trigger []).
  - reflexivity.
  - vm_compute. reflexivity.
  - vm_compute. reflexivity.
Defined.

Example render_from_scratch_no_triggers :
  d_triggers (b_template b_from_scratch0) = Some [ist_trigger] /\
  fst (render X0 true b_from_scratch0) = Ok (b_template (snd (render X0 true b_from_scratch0))) /\
  d_triggers (b_template (snd (render X0 true b_from_scratch0))) = None.
Proof. split; [reflexivity|]. split; vm_compute; reflexivity. Qed.

(* ================================================================== *)
(** * Further properties of the request builder *)

(** ** The stages of [base_render] and of [render_v2_labels] *)

Global Instance same_field_preorder {A} (f : doc -> A) : PreOrder (same_field f).
Proof.
  split; [intros b; reflexivity|].
  intros b1 b2 b3 H1 H2. unfold same_field in *. congruence.
Qed.

Ltac leaf_field :=
  intros [[? ? ? ? ? ? ? ? ? ? ? ? ?] ? ? ? ? ? ? ? ? ? ? ? ? ? ? ? ? ?];
  cbv [update_base_node_selector with_template with_base_image with_source_registry
       with_organization with_scratch_selector with_explicit_selector with_auto_selector
       with_isolated_selector set_required_secrets_doc same_field];
  repeat case_match; reflexivity.

(** Chain [R x y], [R y z], ... from the context into [R x w]. *)
Ltac chain := repeat first [assumption | (etrans; [eassumption|])].

Lemma base_render_inv (X : externals) (v : bool) (b b' : builder) :
  base_render X v b = (Ok tt, b') ->
  exists api c1 c2 c3 c4 c5 c6 c7 c8 data c9,
    b_osbs_api b = Some api /\
    (v = true -> user_params_validate X (b_user_params b) = None) /\
    render_name b = (Ok tt, c1) /\
    render_output_name c1 = (Ok tt, c2) /\
    render_custom_strategy c2 = (Ok tt, c3) /\
    render_resource_limits c3 = (Ok tt, c4) /\
    adjust_for_scratch X c4 = (Ok tt, c5) /\
    set_reactor_config X c5 = (Ok tt, c6) /\
    render_user_params X c6 = (Ok tt, c7) /\
    delete_atomic_reactor_placeholder c7 = (Ok tt, c8) /\
    get_reactor_config_data c8 = (Ok data, c9) /\
    set_data_from_reactor_config X data c9 = (Ok tt, b').
Proof.
  intros H. unfold base_render in H.
  split_bind H. apply get_self_inv in H0 as [-> ->].
  destruct (b_osbs_api b) as [api|] eqn:Ea; [|discriminate H].
  split_bind_as H Hv.
  assert (Hv' : x0 = b /\ (v = true -> user_params_validate X (b_user_params b) = None)).
  { revert Hv. destruct v; cbv [mret M_ret raise];
      [destruct (user_params_validate X (b_user_params b))|]; intros Hv;
      inversion Hv; split; auto; discriminate. }
  destruct Hv' as [-> Hval].
  do 8 (split_bind H; destruct x).
  split_bind H.
  repeat match goal with u : unit |- _ => destruct u end.
  do 11 eexists. split; [reflexivity|]. split; [exact Hval|].
  repeat (split; [eassumption|]). eassumption.
Qed.

Lemma render_v2_labels_inv (X : externals) (b b2 : builder) :
  render_v2_labels X b = (Ok tt, b2) ->
  exists ist c1 c2,
    let up := b_user_params b in
    c1 = with_template b (doc_with_git_ref (doc_with_git_uri (b_template b) (up_git_uri up))
                                          (up_git_ref up)) /\
    has_ist_trigger c1 = (Ok ist, c1) /\
    (if (ist : bool) then set_first_trigger_from_name (up_trigger_imagestreamtag up)
     else mret tt) c1 = (Ok tt, c2) /\
    (set_label X "git-repo-name" (Some (git_repo_humanish_part_from_uri X (up_git_uri up)));;
     set_label X "git-branch" (up_git_branch up);;
     set_label X "git-full-repo" (up_git_uri up);;
     match up_koji_task_id up with
     | Some koji_task_id =>
         set_label X "koji-task-id" (Some (py_str_int koji_task_id));;
         (if bool_decide (b_triggered_after_koji_task b = None)
          then set_label X "original-koji-task-id" (Some (py_str_int koji_task_id))
          else mret tt)
     | None => mret tt
     end) c2 = (Ok tt, b2).
Proof.
  intros H. unfold render_v2_labels in H.
  split_bind H. apply get_self_inv in H0 as [-> ->].
  split_bind H. destruct x.
  cbv [modify_template modify_self] in H0.
  pose proof (f_equal snd H0) as Hx0. simpl snd in Hx0. subst x0.
  split_bind_as H Hist.
  assert (Hc : x0 = with_template b (doc_with_git_ref (doc_with_git_uri (b_template b)
            (up_git_uri (b_user_params b))) (up_git_ref (b_user_params b)))).
  { revert Hist. unfold has_ist_trigger. cbv [mbind M_bind template mret M_ret raise].
    destruct (has_ist_trigger_in _); intros Hh; pose proof (f_equal snd Hh) as Hs; simpl snd in Hs;
      symmetry; exact Hs. }
  subst x0. split_bind_as H Hif. destruct x0.
  exists x; eexists; exists x1. cbn zeta. split; [reflexivity|]. split; [exact Hist|].
  split; [exact Hif|exact H].
Qed.

(** ** Strings *)

Lemma count_dash_app (s t : string) :
  count_dash (s +:+ t) = (count_dash s + count_dash t)%nat.
Proof. induction s as [|c s IH]; simpl; [reflexivity|]. rewrite IH. lia. Qed.

Lemma has_dash_count (s : string) : has_dash s = false <-> count_dash s = 0%nat.
Proof.
  induction s as [|c s IH]; simpl; [split; reflexivity|].
  destruct (Ascii.eqb c dash); simpl; [split; intros; [discriminate|lia]|exact IH].
Qed.

Lemma break_last_dash_spec (s : string) :
  match break_last_dash s with
  | Some (a, b) => s = a +:+ String dash b /\ has_dash b = false
  | None => has_dash s = false
  end.
Proof.
  induction s as [|c r IH]; simpl; [reflexivity|].
  destruct (break_last_dash r) as [[a b]|].
  - destruct IH as [-> Hb]. split; [reflexivity|exact Hb].
  - destruct (Ascii.eqb c dash) eqn:Ec.
    + apply Ascii.eqb_eq in Ec. subst c. split; [reflexivity|exact IH].
    + exact IH.
Qed.

Lemma count_dash_split (a b : string) :
  has_dash b = false -> count_dash (a +:+ String dash b) = S (count_dash a).
Proof.
  intros Hb. rewrite count_dash_app. simpl.
  apply has_dash_count in Hb. rewrite Hb. lia.
Qed.

(** [s.rsplit('-', 2)] as render_name and SourceBuildRequest.render_name
    use it: joining the parts with ['-'] gives [s] back; there are one to
    three parts, those after the first hold no ['-'], and there are three
    exactly when [s] has at least two ['-']. *)
Theorem rsplit_dash_2_round_trip (s : string) :
  String.concat "-" (rsplit_dash_2 s) = s /\
  (1 <= length (rsplit_dash_2 s) <= 3)%nat /\
  Forall (fun p => has_dash p = false) (tail (rsplit_dash_2 s)) /\
  (length (rsplit_dash_2 s) = 3%nat <-> (2 <= count_dash s)%nat).
Proof.
  unfold rsplit_dash_2. pose proof (break_last_dash_spec s) as Hs.
  destruct (break_last_dash s) as [[a ts]|].
  - destruct Hs as [-> Hts]. pose proof (break_last_dash_spec a) as Ha.
    rewrite count_dash_split by exact Hts.
    destruct (break_last_dash a) as [[p salt]|].
    + destruct Ha as [-> Hsalt]. rewrite count_dash_split by exact Hsalt.
      split; [rewrite string_app_assoc; reflexivity|].
      split; [simpl; lia|]. split; [repeat constructor; assumption|].
      simpl. split; intros; lia.
    + apply has_dash_count in Ha. rewrite Ha.
      split; [reflexivity|]. split; [simpl; lia|]. split; [repeat constructor; assumption|].
      simpl. split; intros; lia.
  - apply has_dash_count in Hs. rewrite Hs.
    split; [reflexivity|]. split; [simpl; lia|]. split; [constructor|].
    simpl. split; intros; lia.
Qed.

Lemma rsplit_dash_2_three (s : string) (x y z : string) :
  rsplit_dash_2 s = [x; y; z] -> (2 <= count_dash s)%nat.
Proof.
  unfold rsplit_dash_2. pose proof (break_last_dash_spec s) as Hs.
  destruct (break_last_dash s) as [[a ts]|]; [|discriminate].
  destruct Hs as [-> Hts]. pose proof (break_last_dash_spec a) as Ha.
  destruct (break_last_dash a) as [[p salt]|]; [|discriminate].
  destruct Ha as [-> Hsalt]. intros _.
  rewrite !count_dash_split by assumption. lia.
Qed.

Lemma string_length_app (s t : string) :
  String.length (s +:+ t) = (String.length s + String.length t)%nat.
Proof. induction s as [|c s IH]; simpl; [reflexivity|]. rewrite IH. reflexivity. Qed.

Lemma substring_app_r (s t : string) (n : nat) :
  substring (String.length s) n (s +:+ t) = substring 0 n t.
Proof. induction s as [|c s IH]; [reflexivity|]. exact IH. Qed.

Lemma substring_full (t : string) : substring 0 (String.length t) t = t.
Proof. induction t as [|c t IH]; simpl; [reflexivity|]. rewrite IH. reflexivity. Qed.

Lemma substring_app_l (s t : string) : substring 0 (String.length s) (s +:+ t) = s.
Proof. induction s as [|c s IH]; [destruct t; reflexivity|]. simpl. rewrite IH. reflexivity. Qed.

Lemma ends_with_app (s suf : string) : ends_with suf (s +:+ suf) = true.
Proof.
  unfold ends_with. rewrite string_length_app.
  replace (String.length s + String.length suf - String.length suf)%nat
    with (String.length s) by lia.
  rewrite substring_app_r, substring_full, String.eqb_refl.
  apply andb_true_intro. split; [apply Nat.leb_le; lia|reflexivity].
Qed.

Lemma drop_last_app (s suf : string) : drop_last (String.length suf) (s +:+ suf) = s.
Proof.
  unfold drop_last. rewrite string_length_app.
  replace (String.length s + String.length suf - String.length suf)%nat
    with (String.length s) by lia.
  apply substring_app_l.
Qed.

(** The platform suffix of render_name: with a non-empty platform [p], the
    image tag [s-p] loses exactly its trailing ['-p']. *)
Theorem strip_platform_suffix_app (p s : string) :
  p <> "" -> strip_platform_suffix (Some p) (s +:+ "-" +:+ p) = s.
Proof.
  intros Hp. unfold strip_platform_suffix.
  destruct p as [|c p']; [congruence|]. cbn [str_truthy default].
  rewrite ends_with_app. apply drop_last_app.
Qed.

Lemma strip_platform_suffix_app_witness :
  strip_platform_suffix (Some "x86_64") ("myimage-abc123-1" +:+ "-" +:+ "x86_64")
  = "myimage-abc123-1".
Proof. apply strip_platform_suffix_app. discriminate. Defined.

(** ** The name of the build *)

(** render_name of a scratch or an isolated build raises the ValueError of
    the unpacking of [rsplit('-', 2)] when the image tag, once its
    platform suffix is stripped, holds fewer than two ['-']; nothing has
    been changed then. *)
Theorem render_name_short_tag (b : builder) :
  (b_scratch b || b_isolated b) = true ->
  (count_dash (strip_platform_suffix (up_platform (b_user_params b))
                                     (up_image_tag (b_user_params b))) < 2)%nat ->
  render_name b = (Err (ValueError "not enough values to unpack (expected 3)"), b).
Proof.
  intros Hv Hc. unfold render_name. run_m. rewrite Hv.
  destruct (rsplit_dash_2 _) as [|x [|y [|z [|w l]]]] eqn:E; try reflexivity.
  apply rsplit_dash_2_three in E. lia.
Qed.

Lemma render_name_short_tag_witness :
  (b_scratch b_short_tag0 || b_isolated b_short_tag0) = true /\
  (count_dash (strip_platform_suffix (up_platform (b_user_params b_short_tag0))
                                     (up_image_tag (b_user_params b_short_tag0))) < 2)%nat /\
  render_name b_short_tag0
  = (Err (ValueError "not enough values to unpack (expected 3)"), b_short_tag0).
Proof.
  split; [reflexivity|]. split; [vm_compute; lia|].
  apply render_name_short_tag; [reflexivity|vm_compute; lia].
Defined.

(** SourceBuildRequest.render_name: an image tag [p-salt-timestamp]
    (salt and timestamp without ['-']) names the build
    [sources-salt-timestamp], with the prefix [scratch-] for a scratch
    build; nothing else changes. *)
Theorem source_render_name_ok (b : builder) (p salt ts : string) :
  up_image_tag (b_user_params b) = p +:+ "-" +:+ salt +:+ "-" +:+ ts ->
  has_dash salt = false -> has_dash ts = false ->
  source_render_name b =
    (Ok tt, with_template b (doc_with_name (b_template b)
      (Some (if b_scratch b then "scratch-sources-" +:+ salt +:+ "-" +:+ ts
             else "sources-" +:+ salt +:+ "-" +:+ ts)))).
Proof.
  intros Htag Hs Ht. unfold source_render_name. run_m.
  rewrite Htag, rsplit_dash_2_app by assumption.
  destruct (b_scratch b); reflexivity.
Qed.

Lemma source_render_name_ok_witness :
  up_image_tag (b_user_params b_scratch0) = "myimage" +:+ "-" +:+ "abc123" +:+ "-" +:+ "20200101000000" /\
  source_render_name b_scratch0 =
    (Ok tt, with_template b_scratch0 (doc_with_name (b_template b_scratch0)
      (Some "scratch-sources-abc123-20200101000000"))).
Proof.
  split; [reflexivity|].
  exact (source_render_name_ok b_scratch0 "myimage" "abc123" "20200101000000"
           eq_refl eq_refl eq_refl).
Defined.

(** SourceBuildRequest.render_name raises the ValueError of the unpacking
    when the image tag holds fewer than two ['-'], leaving the request as
    it was. *)
Theorem source_render_name_short_tag (b : builder) :
  (count_dash (up_image_tag (b_user_params b)) < 2)%nat ->
  source_render_name b = (Err (ValueError "not enough values to unpack (expected 3)"), b).
Proof.
  intros Hc. unfold source_render_name. run_m.
  destruct (rsplit_dash_2 _) as [|x [|y [|z [|w l]]]] eqn:E; try reflexivity.
  apply rsplit_dash_2_three in E. lia.
Qed.

Lemma source_render_name_short_tag_witness :
  (count_dash (up_image_tag (b_user_params b_short_tag0)) < 2)%nat /\
  source_render_name b_short_tag0
  = (Err (ValueError "not enough values to unpack (expected 3)"), b_short_tag0).
Proof.
  split; [vm_compute; lia|].
  apply source_render_name_short_tag. vm_compute. lia.
Defined.

(** ** Custom base images *)

Lemma prefix_app_l (a c s : string) : String.prefix (a +:+ c) s = true -> String.prefix a s = true.
Proof.
  revert s. induction a as [|x a IH]; intros s H; [destruct s; reflexivity|].
  destruct s as [|y s]; [discriminate H|]. simpl in *.
  destruct (ascii_dec x y); [apply IH; exact H|discriminate H].
Qed.

Lemma prefix_substring (a s : string) (n : nat) :
  String.prefix a (substring 0 n s) = true -> String.prefix a s = true.
Proof.
  revert s n. induction a as [|x a IH]; intros s n H; [destruct s; reflexivity|].
  destruct s as [|y s]; destruct n as [|n]; simpl in H; try discriminate H.
  simpl. destruct (ascii_dec x y); [eapply IH; exact H|discriminate H].
Qed.

Lemma custom_base_image_body_prefix (s : string) :
  custom_base_image_body s = true -> String.prefix "koji/image-build" s = true.
Proof.
  unfold custom_base_image_body. intros H. apply orb_true_iff in H as [H|H].
  - apply String.eqb_eq in H. subst s. reflexivity.
  - apply andb_true_iff in H as [H _]. exact (prefix_app_l "koji/image-build" ":" s H).
Qed.

(** BuildRequestV2.is_custom_base_image: [koji/image-build] and
    [koji/image-build:<tag>] for a tag without a newline are custom base
    images, and a base image that does not start with
    [koji/image-build] (or no base image) is not. *)
Theorem is_custom_base_image_cases (b : builder) :
  (b_base_image b = Some "koji/image-build" -> is_custom_base_image b = true) /\
  (forall t, b_base_image b = Some ("koji/image-build:" +:+ t) -> has_newline t = false ->
   is_custom_base_image b = true) /\
  (String.prefix "koji/image-build" (default "" (b_base_image b)) = false ->
   is_custom_base_image b = false).
Proof.
  unfold is_custom_base_image, custom_base_image_re. split; [|split].
  - intros ->. reflexivity.
  - intros t -> Ht. cbn [default]. apply orb_true_intro. left.
    unfold custom_base_image_body. apply orb_true_intro. right.
    apply andb_true_intro. split.
    + clear Ht. induction t; reflexivity.
    + unfold id. rewrite string_length_app.
      pose proof (substring_app_r "koji/image-build:" t (String.length t)) as E.
      cbn [String.length] in *.
      replace (S (S (S (S (S (S (S (S (S (S (S (S (S (S (S (S (S 0)))))))))))))))) +
                 String.length t - 17)%nat with (String.length t) by lia.
      rewrite E, substring_full, Ht. reflexivity.
  - intros Hp. destruct (custom_base_image_body (default "" (b_base_image b))) eqn:E1.
    + apply custom_base_image_body_prefix in E1. congruence.
    + cbn [orb]. destruct (ends_with _ _); [|reflexivity]. cbn [andb].
      destruct (custom_base_image_body (drop_last 1 _)) eqn:E2; [|reflexivity].
      apply custom_base_image_body_prefix in E2. unfold drop_last in E2.
      apply prefix_substring in E2. congruence.
Qed.

(** ** ImageStreamTag triggers *)

(** BuildRequestV2.has_ist_trigger, on the list [spec.triggers]: [True]
    only when some trigger of type [ImageChange] has [imageChange.from.kind]
    [ImageStreamTag]; an error only for an [ImageChange] trigger whose
    [imageChange], [imageChange.from] or [imageChange.from.kind] is
    missing, the KeyError naming that key; and when every [ImageChange]
    trigger has all three, the answer is whether one of them has kind
    [ImageStreamTag]. *)
Theorem has_ist_trigger_in_spec (l : list trigger) :
  (has_ist_trigger_in l = Ok true ->
   exists t f, t ∈ l /\ t_type t = "ImageChange" /\ t_image_change t = Some (Some f) /\
    from_kind f = Some "ImageStreamTag") /\
 (forall e, has_ist_trigger_in l = Err e ->
   exists t, t ∈ l /\ t_type t = "ImageChange" /\
    ((t_image_change t = None /\ e = KeyError "imageChange") \/
      (t_image_change t = Some None /\ e = KeyError "from") \/
      (exists f, t_image_change t = Some (Some f) /\ from_kind f = None /\ e = KeyError "kind"))) /\
 ((forall t, t ∈ l -> t_type t = "ImageChange" ->
      exists f k, t_image_change t = Some (Some f) /\ from_kind f = Some k) ->
   has_ist_trigger_in l =
     Ok (existsb (fun t => String.eqb (t_type t) "ImageChange" &&
                           match t_image_change t with
                           | Some (Some f) =>
                               match from_kind f with
                               | Some k => String.eqb k "ImageStreamTag"
                               | None => false
                               end
                           | _ => false
                           end) l)).
Proof.
  induction l as [|t l (IH1 & IH2 & IH3)]; simpl.
  - split; [discriminate|]. split; [discriminate|]. reflexivity.
  - assert (Hrest :
      (has_ist_trigger_in l = Ok true ->
       exists t' f, t' ∈ t :: l /\ t_type t' = "ImageChange" /\
        t_image_change t' = Some (Some f) /\ from_kind f = Some "ImageStreamTag") /\
     (forall e, has_ist_trigger_in l = Err e ->
       exists t', t' ∈ t :: l /\ t_type t' = "ImageChange" /\
        ((t_image_change t' = None /\ e = KeyError "imageChange") \/
          (t_image_change t' = Some None /\ e = KeyError "from") \/
          (exists f, t_image_change t' = Some (Some f) /\ from_kind f = None /\
                    e = KeyError "kind")))).
    { split.
      - intros H. destruct (IH1 H) as (t' & f & Hin & ?). exists t', f. split; [right; exact Hin|auto].
      - intros e H. destruct (IH2 e H) as (t' & Hin & ?). exists t'. split; [right; exact Hin|auto]. }
    destruct Hrest as [R1 R2].
    assert (Hall_l : (forall t', t' ∈ t :: l -> t_type t' = "ImageChange" ->
                        exists f k, t_image_change t' = Some (Some f) /\ from_kind f = Some k) ->
                     forall t', t' ∈ l -> t_type t' = "ImageChange" ->
                        exists f k, t_image_change t' = Some (Some f) /\ from_kind f = Some k).
    { intros Hall t' Ht'. apply Hall. right. exact Ht'. }
    destruct (String.eqb_spec (t_type t) "ImageChange") as [Ht|Ht]; cbn [andb].
    + destruct (t_image_change t) as [[f|]|] eqn:Ei.
      * destruct (from_kind f) as [kind|] eqn:Ek.
        -- destruct (String.eqb_spec kind "ImageStreamTag") as [->|Hk]; cbn [orb].
           ++ split; [intros _; exists t, f; split; [left|auto]|].
              split; [discriminate|]. reflexivity.
           ++ split; [exact R1|]. split; [exact R2|].
              intros Hall. apply IH3. apply Hall_l. exact Hall.
        -- split; [discriminate|]. split.
           ++ intros e He. injection He as <-. exists t. split; [left|].
              split; [exact Ht|]. right. right. exists f. auto.
           ++ intros Hall. destruct (Hall t ltac:(left) Ht) as (f' & k & Hf & Hk).
              rewrite Ei in Hf. injection Hf as <-. congruence.
      * split; [discriminate|]. split.
        -- intros e He. injection He as <-. exists t. split; [left|]. auto.
        -- intros Hall. destruct (Hall t ltac:(left) Ht) as (f' & k & Hf & _). congruence.
      * split; [discriminate|]. split.
        -- intros e He. injection He as <-. exists t. split; [left|]. auto.
        -- intros Hall. destruct (Hall t ltac:(left) Ht) as (f' & k & Hf & _). congruence.
    + split; [exact R1|]. split; [exact R2|].
      intros Hall. apply IH3. apply Hall_l. exact Hall.
Qed.

(** ** The environment of the custom strategy *)

Lemma delete_first_named_absent (n : string) (l : list env_entry) :
  Forall (fun x => env_name x <> n) l -> delete_first_named n l = l.
Proof.
  induction 1 as [|x l Hx Hl IH]; simpl; [reflexivity|].
  destruct (String.eqb_spec (env_name x) n); [congruence|]. rewrite IH. reflexivity.
Qed.

(** delete_atomic_reactor_placeholder's loop: in [pre ++ e :: post] where
    [e] is the first entry named [n], exactly [e] is removed; and the list
    is left as it is exactly when no entry is named [n]. *)
Theorem delete_first_named_spec (n : string) (l : list env_entry) :
  (forall pre e post, l = (pre ++ e :: post)%list -> env_name e = n ->
   Forall (fun x => env_name x <> n) pre ->
   delete_first_named n l = (pre ++ post)%list) /\
  (delete_first_named n l = l <-> Forall (fun x => env_name x <> n) l).
Proof.
  split.
  - intros pre e post -> He Hpre. induction Hpre as [|x pre Hx Hpre IH]; simpl.
    + rewrite He, String.eqb_refl. reflexivity.
    + destruct (String.eqb_spec (env_name x) n); [congruence|]. rewrite IH. reflexivity.
  - split; [|apply delete_first_named_absent].
    induction l as [|x l IH]; simpl; intros H; [constructor|].
    destruct (String.eqb_spec (env_name x) n) as [Hx|Hx].
    + exfalso. apply (f_equal length) in H. simpl in H. lia.
    + injection H as H. constructor; [exact Hx|exact (IH H)].
Qed.

(** ** Resource limits *)

(** BaseBuildRequest.set_resource_limits: the limits become a mapping (an
    empty one when unset) in which each given value replaces the one for
    its key and every other key keeps its value; the template is not
    touched. *)
Theorem set_resource_limits_spec (cpu memory storage : option string) (b : builder) :
  let old := default ∅ (b_resource_limits b) in
  let b' := snd (set_resource_limits cpu memory storage b) in
  fst (set_resource_limits cpu memory storage b) = Ok tt /\
  b_template b' = b_template b /\
  exists rl, b_resource_limits b' = Some rl /\
    rl !! "cpu" = cpu ∪ old !! "cpu" /\
    rl !! "memory" = memory ∪ old !! "memory" /\
    rl !! "storage" = storage ∪ old !! "storage" /\
    (forall k, k <> "cpu" -> k <> "memory" -> k <> "storage" -> rl !! k = old !! k).
Proof.
  cbn zeta. unfold set_resource_limits. run_m. cbn [fst snd].
  split; [reflexivity|]. split; [reflexivity|].
  eexists. split; [reflexivity|].
  set (old := default ∅ (b_resource_limits b)).
  destruct cpu as [c|], memory as [m|], storage as [s|]; cbn [union option_union];
    repeat split; intros;
    repeat first [ rewrite lookup_insert_eq
                 | rewrite lookup_insert_ne by (first [discriminate|congruence]) ];
    rewrite ?option_union_Some_l, ?option_union_None_l; reflexivity.
Qed.

(** set_resource_limits followed by render_resource_limits: in
    [spec.resources.limits] a value given to set_resource_limits wins over
    an earlier one of the request, which wins over the template's. *)
Theorem set_resource_limits_render (cpu memory storage : option string) (b : builder) :
  let old := default ∅ (b_resource_limits b) in
  let tl := default ∅ (d_limits (b_template b)) in
  let b1 := snd (set_resource_limits cpu memory storage b) in
  fst (render_resource_limits b1) = Ok tt /\
  exists lim, d_limits (b_template (snd (render_resource_limits b1))) = Some lim /\
    lim !! "cpu" = (cpu ∪ old !! "cpu") ∪ tl !! "cpu" /\
    lim !! "memory" = (memory ∪ old !! "memory") ∪ tl !! "memory" /\
    lim !! "storage" = (storage ∪ old !! "storage") ∪ tl !! "storage" /\
    (forall k, k <> "cpu" -> k <> "memory" -> k <> "storage" -> lim !! k = old !! k ∪ tl !! k).
Proof.
  cbn zeta. unfold set_resource_limits, render_resource_limits. run_m. cbn.
  split; [reflexivity|]. eexists. split; [reflexivity|].
  set (old := default ∅ (b_resource_limits b)).
  set (tl := default ∅ (d_limits (b_template b))).
  rewrite !lookup_union.
  destruct cpu as [c|], memory as [m|], storage as [s|]; cbn [union option_union];
    repeat split; intros;
    rewrite ?lookup_union;
    repeat first [ rewrite lookup_insert_eq
                 | rewrite lookup_insert_ne by (first [discriminate|congruence]) ];
    rewrite ?option_union_Some_l, ?option_union_None_l; reflexivity.
Qed.

(** ** Node selectors *)

(** The record updates of the selector step, unfolded. *)
Ltac sel_cbv :=
    cbv beta iota delta [with_template with_auto_selector with_scratch_selector with_isolated_selector
         with_explicit_selector doc_with_node_selector
         b_template b_scratch b_is_auto b_isolated b_osbs_api b_base_image
         b_platform_node_selector b_scratch_build_node_selector b_explicit_build_node_selector
         b_auto_build_node_selector b_isolated_build_node_selector b_triggered_after_koji_task
         b_skip_build b_repo_info b_resource_limits b_source_registry b_organization b_user_params
         d_name d_labels d_output_name d_from_kind d_from_name d_env d_secrets d_limits
         d_node_selector d_triggers d_deadline d_git_uri d_git_ref].

(** BuildRequestV2.render_node_selectors run twice leaves the request as
    one run does: the merge of the platform selector into the builder's
    own selector object, which the first run performs through the alias,
    changes nothing the second time. *)
Theorem render_node_selectors_idempotent (X : externals) (bt : option string) (b : builder) :
  (render_node_selectors X bt;; render_node_selectors X bt) b = render_node_selectors X bt b.
Proof.
  unfold render_node_selectors. run_m.
  destruct (bool_decide (bt = Some (BUILD_TYPE_WORKER X))); [|reflexivity].
  destruct b as [d sc au iso api bi plat ssel esel asel isel tk sk ri rl sr org up].
  unfold base_node_selector, update_base_node_selector.
  destruct (decide (plat = ∅)) as [Ep|Ep].
  - destruct au, sc, iso; sel_cbv;
     rewrite !(bool_decide_true (plat = ∅)) by exact Ep; reflexivity.
  - destruct au, sc, iso; sel_cbv;
     rewrite !(bool_decide_false (plat = ∅)) by exact Ep;
     rewrite (map_union_assoc plat plat), (map_union_idemp plat); reflexivity.
Qed.

(** ** Secrets and the reactor configuration *)

Lemma secret_names_elem (X : externals) (r : list string) (d : doc) (s : string) :
  s ∈ map secret_source_name (default [] (d_secrets (set_required_secrets_doc X r d))) <->
  s ∈ map secret_source_name (default [] (d_secrets d)) \/ s ∈ r.
Proof.
  destruct r as [|x r].
  - cbn [set_required_secrets_doc]. split; [intros H; left; exact H|].
    intros [H|H]; [exact H|inversion H].
  - rewrite set_required_secrets_doc_cons. cbn [d_secrets doc_with_secrets default].
    rewrite new_secret_mounts_eq. unfold id.
    rewrite map_app, names_of_mounts, elem_of_app,
      list_elem_of_filter, elem_of_remove_dups.
    destruct (decide (s ∈ map secret_source_name (default [] (d_secrets d)))); tauto.
Qed.

(** BuildRequestV2.set_required_secrets: no mounted secret is removed.
    An orchestrator build mounts every required secret and every worker
    token secret when both keys are lists or absent, and raises TypeError,
    the request unchanged, when either key is [null].  Any other build
    never fails, and mounts no new secret that is not required (worker
    token secrets included). *)
Theorem set_required_secrets_build_type (X : externals) (rcd : rc_data) (b : builder) :
  let names (d : doc) := map secret_source_name (default [] (d_secrets d)) in
  let b' := snd (set_required_secrets X rcd b) in
  let required := default (Some []) (rc_required_secrets rcd) in
  let tokens := default (Some []) (rc_worker_token_secrets rcd) in
  let orchestrator := up_build_type (b_user_params b) = Some (BUILD_TYPE_ORCHESTRATOR X) in
  (forall s, s ∈ names (b_template b) -> s ∈ names (b_template b')) /\
  (orchestrator -> forall req tok, required = Some req -> tokens = Some tok ->
   fst (set_required_secrets X rcd b) = Ok tt /\
   forall s, s ∈ (req ++ tok)%list -> s ∈ names (b_template b')) /\
  (orchestrator -> required = None \/ tokens = None ->
   (exists msg, fst (set_required_secrets X rcd b) = Err (TypeError msg)) /\ b' = b) /\
  (~ orchestrator ->
   fst (set_required_secrets X rcd b) = Ok tt /\
   forall s, s ∉ default [] required -> s ∉ names (b_template b) -> s ∉ names (b_template b')).
Proof.
  cbn zeta. unfold set_required_secrets, _set_required_secrets. run_m.
  destruct (decide (up_build_type (b_user_params b) = Some (BUILD_TYPE_ORCHESTRATOR X)))
    as [Ho|Ho].
  - rewrite (bool_decide_true _ Ho).
    destruct (default (Some []) (rc_required_secrets rcd)) as [req|],
      (default (Some []) (rc_worker_token_secrets rcd)) as [tok|];
      cbn [fst snd b_template with_template].
    + split; [intros s Hs; apply secret_names_elem; left; exact Hs|].
      split; [intros _ req' tok' E1 E2; injection E1 as <-; injection E2 as <-|].
      { split; [reflexivity|]. intros s Hs. apply secret_names_elem. right. exact Hs. }
      split; [intros _ [E|E]; discriminate E|]. intros Hn; contradiction.
    + split; [intros s Hs; exact Hs|].
      split; [intros _ req' tok' _ E; discriminate E|].
      split; [intros _ _; split; [eexists; reflexivity|reflexivity]|]. intros Hn; contradiction.
    + split; [intros s Hs; exact Hs|].
      split; [intros _ req' tok' E; discriminate E|].
      split; [intros _ _; split; [eexists; reflexivity|reflexivity]|]. intros Hn; contradiction.
    + split; [intros s Hs; exact Hs|].
      split; [intros _ req' tok' E; discriminate E|].
      split; [intros _ _; split; [eexists; reflexivity|reflexivity]|]. intros Hn; contradiction.
  - rewrite (bool_decide_false _ Ho).
    split; [|split; [intros Hc; contradiction|split; [intros Hc; contradiction|intros _]]].
    + destruct (default (Some []) (rc_required_secrets rcd)) as [req|];
        cbn [fst snd b_template with_template]; intros s Hs; [|exact Hs].
      apply secret_names_elem. left. exact Hs.
    + destruct (default (Some []) (rc_required_secrets rcd)) as [req|];
        cbn [fst snd b_template with_template default]; (split; [reflexivity|]).
      * intros s Hr Hn Hs. apply secret_names_elem in Hs as [Hs|Hs]; contradiction.
      * intros s _ Hn Hs. contradiction.
Qed.







(** BaseBuildRequest.get_reactor_config_data never changes the request.
    A non-empty [reactor_config_override] is returned as it is, before any
    config map is looked at; with neither a non-empty override nor a
    config map name the result is the empty mapping; otherwise the data of
    the config map named by [reactor_config_map] is fetched through the
    OSBS API (its error passes through). *)
Theorem get_reactor_config_data_source (b : builder) :
  let up := b_user_params b in
  snd (get_reactor_config_data b) = b /\
  (forall o, up_reactor_config_override up = Some o -> rc_truthy o = true ->
   fst (get_reactor_config_data b) = Ok o) /\
  (override_truthy up = false -> str_truthy (up_reactor_config_map up) = false ->
   fst (get_reactor_config_data b) = Ok rc_empty) /\
  (forall m api, override_truthy up = false -> up_reactor_config_map up = Some m ->
   str_truthy (Some m) = true -> b_osbs_api b = Some api ->
   fst (get_reactor_config_data b) = get_config_map_data api m).
Proof.
  cbn zeta. unfold get_reactor_config_data, override_truthy. run_m.
  split.
  { destruct (up_reactor_config_override _) as [o|];
      [destruct (rc_truthy o); [reflexivity|]|];
      (destruct (str_truthy _); [destruct (b_osbs_api b) as [api|];
         [destruct (get_config_map_data _ _)|]|]); reflexivity. }
  split; [intros o -> ->; reflexivity|].
  split.
  - intros Ho Hm. destruct (up_reactor_config_override _) as [o|];
      [rewrite Ho|]; rewrite Hm; reflexivity.
  - intros m api Ho Hm Ht Ha. rewrite Hm, Ht, Ha. cbv [default from_option id].
    destruct (up_reactor_config_override _) as [o|]; [rewrite Ho|];
      destruct (get_config_map_data api m); reflexivity.
Qed.

(** ** What a successful render returns *)

Global Instance same_attr_preorder {A} (f : builder -> A) : PreOrder (same_attr f).
Proof.
  split; [intros b; reflexivity|].
  intros b1 b2 b3 H1 H2. unfold same_attr in *. congruence.
Qed.

Ltac leaf_attr :=
  intros [[? ? ? ? ? ? ? ? ? ? ? ? ?] ? ? ? ? ? ? ? ? ? ? ? ? ? ? ? ? ?];
  cbv [update_base_node_selector with_template with_base_image with_source_registry
       with_organization with_scratch_selector with_explicit_selector with_auto_selector
       with_isolated_selector same_attr];
  repeat case_match; reflexivity.

(** The stages of a successful [render X v b = (Ok doc, b')], named. *)
Ltac render_stages H :=
  destruct (render_inv _ _ _ _ _ H) as (b1 & b4 & H1 & H2 & H3);
  destruct (base_render_inv _ _ _ _ H1)
    as (api & c1 & c2 & c3 & c4 & c5 & c6 & c7 & c8 & data & c9 &
        Hapi & Hval & Hname & Hout & Hcs & Hrl & Hsc & Hrc & Hup & Hdel & Hget & Hset);
  destruct (render_v2_until_isolated_inv _ _ _ H2) as (b2 & b3 & H21 & H22 & H23);
  destruct (render_from_isolated_inv _ _ _ _ H3) as (b5 & H5 & H6 & ->).

(** [f] of the document is kept by each listed step. *)
Ltac frames f Hs :=
  match Hs with
  | (?H, ?rest) => pres_in (same_field f) H leaf_field; frames f rest
  | tt => idtac
  end.

Ltac flags Hs :=
  match Hs with
  | (?H, ?rest) => pres_in same_flags H leaf_flags; flags rest
  | tt => idtac
  end.

(** A successful render sets [spec.output.to.name] to the image tag. *)
Theorem render_output_name_tag (X : externals) (v : bool) (b b' : builder) (doc : doc) :
  render X v b = (Ok doc, b') ->
  d_output_name doc = Some (up_image_tag (b_user_params b)).
Proof.
  intros H. render_stages H.
  flags (Hname, tt).
  frames d_output_name (Hcs, (Hrl, (Hsc, (Hrc, (Hup, (Hdel, (Hget, (Hset, (H2, (H3, tt)))))))))).
  cbv [render_output_name mbind M_bind get_self modify_self modify_template] in Hout.
  injection Hout as <-.
  repeat match goal with Hf : same_flags _ _ |- _ => destruct Hf as (_ & _ & _ & ?Hu & _) end.
  unfold same_field in *. cbn in *. congruence.
Qed.

Ltac run_m_in H :=
  cbv [mbind M_bind mret M_ret get_self modify_self modify_template template raise] in H.

(** The user parameters and the flags, equal along the listed steps. *)
Ltac flags_eq :=
  repeat match goal with
         | Hf : same_flags _ _ |- _ =>
             destruct Hf as (?Hsc & ?Hau & ?Hiso & ?Hu & ?Hri & ?Htk & ?Hapi')
         end.

(** A successful render sets [spec.source.git.uri] and [.ref] from the
    user parameters. *)
Theorem render_git_source (X : externals) (v : bool) (b b' : builder) (doc : doc) :
  render X v b = (Ok doc, b') ->
  d_git_uri doc = up_git_uri (b_user_params b) /\
  d_git_ref doc = up_git_ref (b_user_params b).
Proof.
  intros H. render_stages H.
  destruct (render_v2_labels_inv _ _ _ H21) as (ist & g1 & g2 & Hg1 & Hist & Hif & Hlab).
  cbn zeta in Hg1. subst g1.
  flags (H1, tt). flags_eq.
  frames d_git_uri (Hif, (Hlab, (H22, (H23, (H3, tt))))).
  frames d_git_ref (Hif, (Hlab, (H22, (H23, (H3, tt))))).
  unfold same_field in *. cbn in *. split; congruence.
Qed.

(** What set_reactor_config, render_user_params and
    delete_atomic_reactor_placeholder do to the environment. *)
Lemma set_reactor_config_step (X : externals) (b b' : builder) r :
  set_reactor_config X b = (r, b') ->
  d_env (b_template b') =
    (d_env (b_template b) ++ option_list (reactor_config_entry X (b_user_params b)))%list /\
  b_user_params b' = b_user_params b.
Proof.
  unfold set_reactor_config. run_m. intros H.
  destruct (reactor_config_entry X (b_user_params b)); injection H as _ <-;
    destruct b; cbn; rewrite ?app_nil_r; split; reflexivity.
Qed.

Lemma render_user_params_step (X : externals) (b b' : builder) r :
  render_user_params X b = (r, b') ->
  d_env (b_template b') =
    (d_env (b_template b) ++ [EnvValue "USER_PARAMS" (user_params_to_json X (b_user_params b))])%list /\
  b_user_params b' = b_user_params b.
Proof.
  unfold render_user_params. run_m. intros H. injection H as _ <-.
  destruct b; split; reflexivity.
Qed.

Lemma delete_atomic_step (b b' : builder) r :
  delete_atomic_reactor_placeholder b = (r, b') ->
  d_env (b_template b') = delete_first_named "ATOMIC_REACTOR_PLUGINS" (d_env (b_template b)) /\
  b_user_params b' = b_user_params b.
Proof.
  unfold delete_atomic_reactor_placeholder. run_m. intros H. injection H as _ <-.
  destruct b; split; reflexivity.
Qed.

Theorem render_env (X : externals) (v : bool) (b b' : builder) (doc : doc) :
  render X v b = (Ok doc, b') ->
  d_env doc =
    delete_first_named "ATOMIC_REACTOR_PLUGINS"
      (d_env (b_template b) ++ option_list (reactor_config_entry X (b_user_params b)) ++
       [EnvValue "USER_PARAMS" (user_params_to_json X (b_user_params b))]).
Proof.
  intros H. render_stages H.
  flags (Hname, (Hout, (Hcs, (Hrl, (Hsc, tt))))). flags_eq.
  frames d_env (Hname, (Hout, (Hcs, (Hrl, (Hsc, (Hget, (Hset, (H2, (H3, tt))))))))).
  apply set_reactor_config_step in Hrc as [Er Ur].
  apply render_user_params_step in Hup as [Eu Uu].
  apply delete_atomic_step in Hdel as [Ed Ud].
  unfold same_field in *.
  rewrite app_assoc. congruence.
Qed.
(** A successful render sets [spec.completionDeadlineSeconds] to 3600
    times the worker deadline (for a worker build) or the orchestrator
    deadline (for any other build) when that many hours is positive, and
    otherwise leaves the template's value. *)
Theorem render_deadline (X : externals) (v : bool) (b b' : builder) (doc : doc) :
  render X v b = (Ok doc, b') ->
  let up := b_user_params b in
  let hours := if bool_decide (up_build_type up = Some (BUILD_TYPE_WORKER X))
               then up_worker_deadline up else up_orchestrator_deadline up in
  d_deadline doc = if (0 <? hours)%Z then Some (hours * 3600)%Z
                   else d_deadline (b_template b).
Proof.
  intros H. render_stages H. cbn zeta.
  split_bind_as H6 Hns. destruct x. split_bind_as H6 Hdl. destruct x.
  run_m_in H6. injection H6 as _ <-.
  flags (H1, (H2, (H5, (Hns, tt)))). flags_eq.
  frames d_deadline (H1, (H2, (H5, (Hns, tt)))).
  unfold same_field in *.
  replace (b_user_params b) with (b_user_params x0) by congruence.
  replace (d_deadline (b_template b)) with (d_deadline (b_template x0)) by congruence.
  clear -Hdl. cbv [_set_deadline set_deadline] in Hdl. run_m_in Hdl.
  destruct (bool_decide _); destruct (0 <? _)%Z; injection Hdl as <-; reflexivity.
Qed.

(** A successful render takes the buildroot of the custom strategy from
    the user parameters: an ImageStreamTag named [build_imagestream] when
    that is set, and otherwise the image [build_image] (the kind is then
    the template's). *)
Theorem render_build_from (X : externals) (v : bool) (b b' : builder) (doc : doc) :
  render X v b = (Ok doc, b') ->
  let up := b_user_params b in
  (str_truthy (up_build_imagestream up) = true ->
   d_from_kind doc = Some "ImageStreamTag" /\ d_from_name doc = up_build_imagestream up) /\
  (str_truthy (up_build_imagestream up) = false ->
   d_from_kind doc = d_from_kind (b_template b) /\ d_from_name doc = up_build_image up).
Proof.
  intros H. render_stages H. cbn zeta.
  flags (Hname, (Hout, tt)). flags_eq.
  frames d_from_kind (Hname, (Hout, (Hrl, (Hsc, (Hrc, (Hup, (Hdel, (Hget, (Hset, (H2, (H3, tt))))))))))).
  frames d_from_name (Hrl, (Hsc, (Hrc, (Hup, (Hdel, (Hget, (Hset, (H2, (H3, tt))))))))).
  cbv [render_custom_strategy] in Hcs. run_m_in Hcs.
  unfold same_field in *.
  replace (b_user_params b) with (b_user_params c2) by congruence.
  destruct (str_truthy _); injection Hcs as <-; cbn in *; split; intros; try discriminate;
    split; congruence.
Qed.

(** A successful render merges the request's resource limits (as
    set_resource_limits left them) over the template's
    [spec.resources.limits], the request's values winning; without them
    the template's limits stay. *)
Theorem render_limits (X : externals) (v : bool) (b b' : builder) (doc : doc) :
  render X v b = (Ok doc, b') ->
  d_limits doc =
    match b_resource_limits b with
    | Some rl => Some (rl ∪ default ∅ (d_limits (b_template b)))
    | None => d_limits (b_template b)
    end.
Proof.
  intros H. render_stages H.
  pres_in (same_attr b_resource_limits) Hname leaf_attr.
  pres_in (same_attr b_resource_limits) Hout leaf_attr.
  pres_in (same_attr b_resource_limits) Hcs leaf_attr.
  frames d_limits (Hname, (Hout, (Hcs, (Hsc, (Hrc, (Hup, (Hdel, (Hget, (Hset, (H2, (H3, tt))))))))))).
  cbv [render_resource_limits] in Hrl. run_m_in Hrl.
  unfold same_field, same_attr in *.
  replace (b_resource_limits b) with (b_resource_limits c3) by congruence.
  replace (d_limits (b_template b)) with (d_limits (b_template c3)) by congruence.
  destruct (b_resource_limits c3); injection Hrl as <-; cbn in *; congruence.
Qed.

(** A successful render of a build that is neither scratch nor isolated
    names it [metadata.name] = the [name] user parameter. *)
Theorem render_name_plain (X : externals) (v : bool) (b b' : builder) (doc : doc) :
  (b_scratch b || b_isolated b) = false ->
  render X v b = (Ok doc, b') ->
  d_name doc = Some (up_name (b_user_params b)).
Proof.
  intros Hv H. render_stages H.
  frames d_name (Hout, (Hcs, (Hrl, (Hsc, (Hrc, (Hup, (Hdel, (Hget, (Hset, (H2, (H3, tt))))))))))).
  cbv [render_name] in Hname. run_m_in Hname. rewrite Hv in Hname.
  injection Hname as <-. unfold same_field in *. cbn in *. congruence.
Qed.

(** With repo info whose configuration disables autorebuild, a
    successful render yields a document without [spec.triggers]. *)
Theorem render_autorebuild_disabled (X : externals) (v : bool) (b b' : builder) (doc : doc)
  (ri : repo_info) :
  b_repo_info b = Some ri -> ri_autorebuild_enabled ri = false ->
  render X v b = (Ok doc, b') ->
  d_triggers doc = None.
Proof.
  intros Hri Hen H. render_stages H.
  flags (H1, (H21, (H22, tt))). flags_eq.
  assert (Hri3 : b_repo_info b3 = Some ri) by congruence.
  cbv [adjust_for_repo_info] in H23. run_m_in H23. rewrite Hri3, Hen in H23.
  injection H23 as <-.
  pose proof (render_from_isolated_trig X _ _ _ H3) as T. exact (proj1 T eq_refl).
Qed.

(** With repo info whose configuration enables autorebuild without
    [add_timestamp_to_release] while the Dockerfile sets a release label,
    render never succeeds. *)
Theorem render_autorebuild_release_label (X : externals) (v : bool) (b : builder)
  (ri : repo_info) :
  b_repo_info b = Some ri -> ri_autorebuild_enabled ri = true ->
  ri_add_timestamp_to_release ri = false -> ri_has_release_label ri = true ->
  forall doc b', render X v b <> (Ok doc, b').
Proof.
  intros Hri Hen Hts Hrel doc b' H. render_stages H.
  flags (H1, (H21, (H22, tt))). flags_eq.
  assert (Hri3 : b_repo_info b3 = Some ri) by congruence.
  cbv [adjust_for_repo_info] in H23. run_m_in H23. rewrite Hri3, Hen, Hts, Hrel in H23.
  discriminate H23.
Qed.

(** ** Labels set by render *)

Lemma set_label_other (X : externals) (name k : string) (value : option string) :
  name <> k -> preserves (same_field (fun d => label_of d k)) (set_label X name value).
Proof.
  intros Hne b r b' H. unfold set_label in H. run_m_in H. injection H as _ <-.
  unfold same_field, label_of. cbn. rewrite lookup_insert_ne by exact Hne.
  destruct (d_labels (b_template b)); [reflexivity|apply lookup_empty].
Qed.

#[local] Hint Resolve set_label_other : pres.
#[local] Hint Extern 1 (_ <> _) => discriminate : pres.

Lemma set_label_value (value : option string) :
  (if str_truthy value then default "" value else "") = default "" value.
Proof. destruct value as [[|c s]|]; reflexivity. Qed.

Lemma set_label_at (X : externals) (name : string) (value : option string) (b b' : builder) r :
  set_label X name value b = (r, b') ->
  label_of (b_template b') name = Some (Some (sanitize_strings_for_openshift X (default "" value))).
Proof.
  intros H. unfold set_label in H. run_m_in H. injection H as _ <-.
  unfold label_of. cbn. rewrite lookup_insert_eq, set_label_value. reflexivity.
Qed.

Ltac label_frames k Hs := frames (fun d => label_of d k) Hs.

(** A successful render labels the build with [git-repo-name] (the
    humanish part of the git URI), [git-branch] and [git-full-repo] (the
    git URI), each sanitized, a missing value giving the empty string. *)
Theorem render_git_labels (X : externals) (v : bool) (b b' : builder) (doc : doc) :
  render X v b = (Ok doc, b') ->
  let up := b_user_params b in
  label_of doc "git-repo-name" =
    Some (Some (sanitize_strings_for_openshift X
                  (git_repo_humanish_part_from_uri X (up_git_uri up)))) /\
  label_of doc "git-branch" =
    Some (Some (sanitize_strings_for_openshift X (default "" (up_git_branch up)))) /\
  label_of doc "git-full-repo" =
    Some (Some (sanitize_strings_for_openshift X (default "" (up_git_uri up)))).
Proof.
  intros H. render_stages H. cbn zeta.
  destruct (render_v2_labels_inv _ _ _ H21) as (ist & g1 & g2 & Hg1 & Hist & Hif & Hlab).
  split_bind_as Hlab Hl1. destruct x. split_bind_as Hlab Hl2. destruct x.
  split_bind_as Hlab Hl3. destruct x.
  flags (H1, tt). flags_eq.
  label_frames "git-repo-name" (Hl2, (Hl3, (Hlab, (H22, (H23, (H3, tt)))))).
  label_frames "git-branch" (Hl3, (Hlab, (H22, (H23, (H3, tt))))).
  label_frames "git-full-repo" (Hlab, (H22, (H23, (H3, tt)))).
  apply set_label_at in Hl1, Hl2, Hl3.
  unfold same_field in *. rewrite <- Hu.
  cbv [default from_option id] in Hl1.
  split; [|split]; congruence.
Qed.

(** A successful render of a build with a Koji task id labels it
    [koji-task-id] = the id, and also [original-koji-task-id] = the id
    unless the build was triggered after a Koji task, in which case that
    label is the template's. *)
Theorem render_koji_labels (X : externals) (v : bool) (b b' : builder) (doc : doc) (z : Z) :
  up_koji_task_id (b_user_params b) = Some z ->
  render X v b = (Ok doc, b') ->
  label_of doc "koji-task-id" =
    Some (Some (sanitize_strings_for_openshift X (py_str_int z))) /\
  (b_triggered_after_koji_task b = None ->
   label_of doc "original-koji-task-id" =
     Some (Some (sanitize_strings_for_openshift X (py_str_int z)))) /\
  (b_triggered_after_koji_task b <> None ->
   label_of doc "original-koji-task-id" = label_of (b_template b) "original-koji-task-id").
Proof.
  intros Hz H. render_stages H.
  destruct (render_v2_labels_inv _ _ _ H21) as (ist & g1 & g2 & Hg1 & Hist & Hif & Hlab).
  cbn zeta in Hg1. subst g1.
  split_bind_as Hlab Hl1. destruct x. split_bind_as Hlab Hl2. destruct x.
  split_bind_as Hlab Hl3. destruct x.
  flags (H1, tt). flags_eq.
  rewrite Hu, Hz in Hlab.
  split_bind_as Hlab Hk. destruct x.
  label_frames "original-koji-task-id" (H1, (Hist, (Hif, (Hl1, (Hl2, (Hl3, (Hk, tt))))))).
  label_frames "koji-task-id" (Hlab, (H22, (H23, (H3, tt)))).
  apply set_label_at in Hk. cbv [default from_option id] in Hk.
  assert (Hb1 : b_triggered_after_koji_task b1 = b_triggered_after_koji_task b) by exact Htk.
  rewrite Hb1 in Hlab.
  destruct (decide (b_triggered_after_koji_task b = None)) as [Hn|Hn].
  - rewrite bool_decide_true in Hlab by exact Hn.
    pose proof Hlab as Ho. apply set_label_at in Ho. cbv [default from_option id] in Ho.
    label_frames "original-koji-task-id" (H22, (H23, (H3, tt))).
    unfold same_field in *.
    split; [congruence|]. split; [intros _; congruence|intros Hc; contradiction].
  - rewrite bool_decide_false in Hlab by exact Hn.
    run_m_in Hlab. injection Hlab as <-.
    label_frames "original-koji-task-id" (H22, (H23, (H3, tt))).
    unfold same_field in *. cbn in *.
    assert (Hg : label_of (doc_with_git_ref (doc_with_git_uri (b_template b1)
                   (up_git_uri (b_user_params b1))) (up_git_ref (b_user_params b1)))
                   "original-koji-task-id" = label_of (b_template b1) "original-koji-task-id")
      by reflexivity.
    split; [congruence|]. split; [intros Hc; contradiction|intros _].
    congruence.
Qed.

(** ** Witnesses of the render properties, on the request [b0] *)

Lemma render_output_name_tag_witness :
  render X0 true b0 = (Ok (b_template (snd (render X0 true b0))), snd (render X0 true b0)) /\
  d_output_name (b_template (snd (render X0 true b0))) = Some (up_image_tag (b_user_params b0)).
Proof.
  split; [vm_compute; reflexivity|].
  apply (render_output_name_tag X0 true b0 (snd (render X0 true b0))).
  vm_compute. reflexivity.
Defined.

Lemma render_git_source_witness :
  render X0 true b0 = (Ok (b_template (snd (render X0 true b0))), snd (render X0 true b0)) /\
  d_git_uri (b_template (snd (render X0 true b0))) = up_git_uri (b_user_params b0) /\
  d_git_ref (b_template (snd (render X0 true b0))) = up_git_ref (b_user_params b0).
Proof.
  split; [vm_compute; reflexivity|].
  apply (render_git_source X0 true b0 (snd (render X0 true b0))).
  vm_compute. reflexivity.
Defined.

Lemma render_env_witness :
  render X0 true b0 = (Ok (b_template (snd (render X0 true b0))), snd (render X0 true b0)) /\
  d_env (b_template (snd (render X0 true b0))) =
    delete_first_named "ATOMIC_REACTOR_PLUGINS"
      (d_env (b_template b0) ++ option_list (reactor_config_entry X0 (b_user_params b0)) ++
       [EnvValue "USER_PARAMS" (user_params_to_json X0 (b_user_params b0))]).
Proof.
  split; [vm_compute; reflexivity|].
  apply (render_env X0 true b0 (snd (render X0 true b0))).
  vm_compute. reflexivity.
Defined.

Lemma render_deadline_witness :
  render X0 true b0 = (Ok (b_template (snd (render X0 true b0))), snd (render X0 true b0)) /\
  d_deadline (b_template (snd (render X0 true b0))) = Some (3 * 3600)%Z.
Proof.
  split; [vm_compute; reflexivity|].
  exact (render_deadline X0 true b0 (snd (render X0 true b0)) _ ltac:(vm_compute; reflexivity)).
Defined.

Lemma render_build_from_witness :
  render X0 true b0 = (Ok (b_template (snd (render X0 true b0))), snd (render X0 true b0)) /\
  str_truthy (up_build_imagestream (b_user_params b0)) = false /\
  d_from_kind (b_template (snd (render X0 true b0))) = d_from_kind (b_template b0) /\
  d_from_name (b_template (snd (render X0 true b0))) = up_build_image (b_user_params b0).
Proof.
  split; [vm_compute; reflexivity|]. split; [reflexivity|].
  apply (render_build_from X0 true b0 (snd (render X0 true b0)) _
           ltac:(vm_compute; reflexivity)).
  reflexivity.
Defined.

Lemma render_limits_witness :
  render X0 true b0 = (Ok (b_template (snd (render X0 true b0))), snd (render X0 true b0)) /\
  d_limits (b_template (snd (render X0 true b0))) = d_limits (b_template b0).
Proof.
  split; [vm_compute; reflexivity|].
  exact (render_limits X0 true b0 (snd (render X0 true b0)) _ ltac:(vm_compute; reflexivity)).
Defined.

Lemma render_name_plain_witness :
  (b_scratch b0 || b_isolated b0) = false /\
  render X0 true b0 = (Ok (b_template (snd (render X0 true b0))), snd (render X0 true b0)) /\
  d_name (b_template (snd (render X0 true b0))) = Some "reponame-master".
Proof.
  split; [reflexivity|]. split; [vm_compute; reflexivity|].
  apply (render_name_plain X0 true b0 (snd (render X0 true b0))); [reflexivity|].
  vm_compute. reflexivity.
Defined.

Lemma render_autorebuild_disabled_witness :
  b_repo_info b_norebuild0 = Some (mk_repo_info false false false) /\
  render X0 true b_norebuild0 =
    (Ok (b_template (snd (render X0 true b_norebuild0))), snd (render X0 true b_norebuild0)) /\
  d_triggers (b_template (snd (render X0 true b_norebuild0))) = None.
Proof.
  split; [reflexivity|]. split; [vm_compute; reflexivity|].
  apply (render_autorebuild_disabled X0 true b_norebuild0 (snd (render X0 true b_norebuild0))
           _ (mk_repo_info false false false)); [reflexivity|reflexivity|].
  vm_compute. reflexivity.
Defined.

Lemma render_autorebuild_release_label_witness :
  b_repo_info b_release_label0 = Some (mk_repo_info true false true) /\
  forall doc b', render X0 true b_release_label0 <> (Ok doc, b').
Proof.
  split; [reflexivity|].
  exact (render_autorebuild_release_label X0 true b_release_label0 (mk_repo_info true false true)
           eq_refl eq_refl eq_refl eq_refl).
Defined.

Lemma render_git_labels_witness :
  render X0 true b0 = (Ok (b_template (snd (render X0 true b0))), snd (render X0 true b0)) /\
  label_of (b_template (snd (render X0 true b0))) "git-branch" = Some (Some "master").
Proof.
  split; [vm_compute; reflexivity|].
  exact (proj1 (proj2 (render_git_labels X0 true b0 (snd (render X0 true b0)) _
                         ltac:(vm_compute; reflexivity)))).
Defined.

Lemma render_koji_labels_witness :
  up_koji_task_id (b_user_params b0) = Some 12345%Z /\
  render X0 true b0 = (Ok (b_template (snd (render X0 true b0))), snd (render X0 true b0)) /\
  label_of (b_template (snd (render X0 true b0))) "original-koji-task-id" = Some (Some "12345").
Proof.
  split; [reflexivity|]. split; [vm_compute; reflexivity|].
  exact (proj1 (proj2 (render_koji_labels X0 true b0 (snd (render X0 true b0)) _ 12345%Z
                         eq_refl ltac:(vm_compute; reflexivity))) eq_refl).
Defined.

Global Instance trig_truthy_rel_preorder : PreOrder trig_truthy_rel.
Proof. split; [intros b H; exact H|intros b1 b2 b3 H1 H2 H; auto]. Qed.

Lemma set_first_trigger_truthy (v : option string) :
  preserves trig_truthy_rel (set_first_trigger_from_name v).
Proof.
  intros b r b' H. unfold set_first_trigger_from_name in H. run_m_in H.
  destruct (d_triggers (b_template b)) as [[|t ts]|] eqn:E; cbn in H;
    [injection H as _ <-; intros Ht; exact Ht| |injection H as _ <-; intros Ht; exact Ht].
  destruct (t_image_change t) as [[f|]|]; cbn in H; injection H as _ <-;
    intros _; [|unfold triggers_truthy; rewrite E; reflexivity..].
  destruct b; reflexivity.
Qed.

#[local] Hint Resolve set_first_trigger_truthy : pres.

Ltac leaf_truthy :=
  intros [[? ? ? ? ? ? ? ? ? ? ? ? ?] ? ? ? ? ? ? ? ? ? ? ? ? ? ? ? ? ?];
  cbv [update_base_node_selector with_template with_base_image with_source_registry
       with_organization with_scratch_selector with_explicit_selector with_auto_selector
       with_isolated_selector set_required_secrets_doc trig_truthy_rel];
  repeat case_match; cbn; intros Ht; exact Ht.

Lemma render_v2_labels_truthy (X : externals) :
  preserves trig_truthy_rel (render_v2_labels X).
Proof. pres_go leaf_truthy. Qed.

Lemma adjust_for_scratch_skip (X : externals) (b b' : builder) (r : result unit) :
  b_scratch b = false -> adjust_for_scratch X b = (r, b') -> b' = b.
Proof. intros Hs H. unfold adjust_for_scratch in H. run_m_in H. rewrite Hs in H. congruence. Qed.

Lemma adjust_for_isolated_skip (X : externals) (rel : option string) (b b' : builder)
  (r : result unit) :
  b_isolated b = false -> adjust_for_isolated X rel b = (r, b') -> b' = b.
Proof. intros Hs H. unfold adjust_for_isolated in H. run_m_in H. rewrite Hs in H. cbn in H. congruence. Qed.

Lemma remove_triggers_skip (b b' : builder) (r : result unit) :
  (is_custom_base_image b || is_from_scratch_image b) = false ->
  remove_triggers_for_base_image b = (r, b') -> b' = b.
Proof.
  intros Hc H. unfold remove_triggers_for_base_image in H. run_m_in H.
  rewrite Hc, andb_false_r in H. congruence.
Qed.

Lemma adjust_for_repo_info_skip (b b' : builder) :
  (forall ri, b_repo_info b = Some ri -> ri_autorebuild_enabled ri = true) ->
  adjust_for_repo_info b = (Ok tt, b') -> b' = b.
Proof.
  intros Hri H. unfold adjust_for_repo_info in H. run_m_in H.
  destruct (b_repo_info b) as [ri|]; [|congruence].
  rewrite (Hri ri eq_refl) in H. cbn in H.
  repeat case_match; congruence.
Qed.

(** ** C2: build variations and triggers *)

(** C2 (as amended).  A successful render of a scratch build or of an
    isolated build yields a document without [spec.triggers]: scratch
    builds lose them in [adjust_for_scratch], isolated builds in
    [adjust_for_isolated], and no later step puts them back.  No other
    build loses them for its variation: when the build is neither scratch
    nor isolated (an auto build, for one) and the template has a
    non-empty [spec.triggers], the rendered document still has a
    non-empty [spec.triggers] unless the base image in effect is a custom
    or [scratch] base image or the repository configuration disables
    autorebuild. *)
Theorem render_variation_removes_triggers (X : externals) (v : bool) (b b' : builder) (doc : doc) :
  render X v b = (Ok doc, b') ->
  ((b_scratch b || b_isolated b) = true -> d_triggers doc = None) /\
  (b_scratch b = false -> b_isolated b = false ->
   triggers_truthy (b_template b) = true ->
   (is_custom_base_image b' || is_from_scratch_image b') = false ->
   (forall ri, b_repo_info b = Some ri -> ri_autorebuild_enabled ri = true) ->
   triggers_truthy doc = true).
Proof.
  intros H. split.
  - intros Hv. destruct (render_inv _ _ _ _ _ H) as (b1 & b4 & H1 & H2 & H3).
    destruct (render_from_isolated_inv _ _ _ _ H3) as (b5 & H5 & H6 & ->).
    pose proof (base_render_flags X v _ _ _ H1) as F1.
    pose proof (render_v2_until_isolated_flags X _ _ _ H2) as F2.
    pose proof (after_isolated_trig X _ _ _ _ H6) as T6.
    destruct (b_isolated b) eqn:Hi.
    + assert (Hi4 : b_isolated b4 = true)
        by (destruct F1 as (_ & _ & ? & _), F2 as (_ & _ & ? & _); congruence).
      destruct (adjust_for_isolated_ok _ _ _ _ Hi4 H5) as [Ht _]. exact (proj1 T6 Ht).
    + rewrite orb_false_r in Hv. pose proof (base_render_scratch _ _ _ _ Hv H1) as Ht1.
      pose proof (render_v2_until_isolated_trig X _ _ _ H2) as T2.
      pose proof (render_from_isolated_trig X _ _ _ H3) as T3.
      exact (proj1 T3 (proj1 T2 Ht1)).
  - intros Hs Hi Ht Hc Hri. render_stages H.
    flags (Hname, (Hout, (Hcs, (Hrl, (Hsc, (Hrc, (Hup, (Hdel, (Hget, (Hset, tt)))))))))).
    flags (H21, (H22, (H23, tt))).
    flags_eq.
    assert (E5 : c5 = c4) by (apply (adjust_for_scratch_skip X c4 c5 (Ok tt)); [congruence|exact Hsc]).
    subst c5.
    frames d_triggers (Hname, (Hout, (Hcs, (Hrl, (Hrc, (Hup, (Hdel, (Hget, (Hset, tt))))))))).
    pose proof (render_v2_labels_truthy X _ _ _ H21) as T2.
    pose proof (remove_triggers_base_image _ _ _ H22) as B2.
    pose proof (adjust_for_repo_info_base_image _ _ _ H23) as B3.
    pose proof (render_from_isolated_base_image X _ _ _ H3) as B4.
    assert (E3 : b3 = b2).
    { apply (remove_triggers_skip b2 b3 (Ok tt)); [|exact H22].
      unfold is_custom_base_image, is_from_scratch_image, same_base_image in *.
      rewrite <- B2, <- B3, <- B4. exact Hc. }
    subst b3.
    assert (E4 : b4 = b2).
    { apply adjust_for_repo_info_skip; [|exact H23].
      intros ri Er. apply Hri. congruence. }
    subst b4.
    assert (E5 : b5 = b2).
    { eapply adjust_for_isolated_skip; [|exact H5]. congruence. }
    subst b5.
    frames d_triggers (H6, tt).
    unfold same_field, trig_truthy_rel, triggers_truthy in *. rewrite HP8. apply T2.
    rewrite HP7, HP6, HP5, HP4, HP3, HP2, HP1, HP0, HP. exact Ht.
Qed.

(** C2 as first stated fails for auto builds: nothing in [render] removes
    the triggers of an [is_auto] build. *)
Lemma render_auto_keeps_triggers :
  b_is_auto b_auto0 = true /\
  exists doc b', render X0 true b_auto0 = (Ok doc, b') /\ d_triggers doc <> None.
Proof.
  split; [reflexivity|].
  exists (b_template (snd (render X0 true b_auto0))), (snd (render X0 true b_auto0)).
  split; vm_compute; [reflexivity|discriminate].
Qed.

Lemma render_variation_removes_triggers_witness :
  (b_scratch b_scratch0 || b_isolated b_scratch0) = true /\
  d_triggers (b_template (snd (render X0 true b_scratch0))) = None /\
  b_is_auto b_auto0 = true /\
  triggers_truthy (b_template (snd (render X0 true b_auto0))) = true.
Proof.
  split; [reflexivity|]. split.
  - apply (proj1 (render_variation_removes_triggers X0 true b_scratch0
                    (snd (render X0 true b_scratch0)) (b_template (snd (render X0 true b_scratch0)))
                    ltac:(vm_compute; reflexivity))).
    reflexivity.
  - split; [reflexivity|].
    apply (proj2 (render_variation_removes_triggers X0 true b_auto0
                    (snd (render X0 true b_auto0)) (b_template (snd (render X0 true b_auto0)))
                    ltac:(vm_compute; reflexivity))).
    + reflexivity.
    + reflexivity.
    + vm_compute. reflexivity.
    + vm_compute. reflexivity.
    + intros ri E. discriminate E.
Defined.

Lemma render_label_keys_ne (k n : string) :
  k ∉ render_label_keys -> n ∈ render_label_keys -> n <> k.
Proof. intros Hk Hn ->. contradiction. Qed.

#[local] Hint Extern 1 (?n <> ?k) =>
  match goal with
  | Hk : k ∉ render_label_keys |- _ =>
      apply (render_label_keys_ne k n Hk); repeat constructor
  end : pres.

(** ** C10: labels *)

(** C10 (as amended).  [set_label] always succeeds, creates
    [metadata.labels] when it is absent, stores the sanitized value with a
    falsy value ([None] or the empty string) replaced by [""], and leaves
    the other labels as they were.  In a document returned by [render]
    every label is either one of the template's, unchanged, or a sanitized
    string: labels the template brings are not sanitized.  Render sets
    labels only under [render_label_keys]: under any other key the
    rendered document has the template's label, a [null] one included, or
    none when the template has none. *)
Theorem render_labels_through_set_label (X : externals) :
  (forall name value b,
     fst (set_label X name value b) = Ok tt /\
     (exists l, d_labels (b_template (snd (set_label X name value b))) = Some l) /\
     label_of (b_template (snd (set_label X name value b))) name =
       Some (Some (sanitize_strings_for_openshift X (default "" value))) /\
     (forall k, k <> name ->
        label_of (b_template (snd (set_label X name value b))) k = label_of (b_template b) k)) /\
  (forall v b b' doc, render X v b = (Ok doc, b') ->
     forall k w, label_of doc k = Some w ->
       label_of (b_template b) k = Some w \/
       exists s, w = Some (sanitize_strings_for_openshift X s)) /\
  (forall v b b' doc, render X v b = (Ok doc, b') ->
     forall k, k ∉ render_label_keys -> label_of doc k = label_of (b_template b) k).
Proof.
  split; [|split].
  - intros name value b. unfold set_label. cbn. split; [reflexivity|].
    split; [eexists; reflexivity|]. split.
    + unfold label_of. cbn. rewrite lookup_insert_eq.
      destruct value as [[|c s]|]; reflexivity.
    + intros k Hk. unfold label_of. cbn.
      rewrite lookup_insert_ne by congruence.
      destruct (d_labels (b_template b)); [reflexivity|]. apply lookup_empty.
  - intros v b b' doc H. rewrite render_split in H.
    split_bind H.
    pose proof (render_until_isolated_labels X v _ _ _ H0) as L1.
    pose proof (render_from_isolated_labels X _ _ _ H) as L2.
    destruct (render_from_isolated_inv _ _ _ _ H) as (_ & _ & _ & ->).
    intros k w Hk. exact ((transitivity L1 L2) k w Hk).
  - intros v b b' doc H k Hk.
    destruct (render_inv _ _ _ _ _ H) as (_ & b4 & _ & _ & H3).
    destruct (render_from_isolated_inv _ _ _ _ H3) as (_ & _ & _ & ->).
    pres_in (same_field (fun d => label_of d k)) H leaf_field. exact HP.
Qed.

(** C10 as first stated fails for a template whose labels hold a JSON
    [null]: it comes out of [render] as it went in. *)
Lemma render_keeps_null_label :
  exists doc b', render X0 true b_null_label0 = (Ok doc, b') /\ label_of doc "x" = Some None.
Proof.
  exists (b_template (snd (render X0 true b_null_label0))), (snd (render X0 true b_null_label0)).
  split; vm_compute; reflexivity.
Qed.
